(** * LLM Council CLI adapter: a shallow embedding of [backend/cli_adapter.py]

    The development follows the Python module top to bottom:

    - Python text ([str.strip], [str.splitlines], [in], [split]);
    - the values [json.loads] produces and the truth value Python gives them;
    - the two output parsers, [_extract_last_message_from_codex_jsonl] and
      [_extract_claude_text];
    - the process runner [_run_cli] and the four adapters, in a small
      state-and-exception monad over a journal of the calls made to the
      operating system;
    - the dispatch layer, [query_model] and [query_models_parallel].

    Text is modelled by [string], one [ascii] per code point, so code points
    above 255 are outside the model.  [json.loads], [json.dumps] and
    [bytes.decode] are library code: every definition takes them as
    parameters, and a decoder and an encoder for a fragment of JSON are given
    to run the definitions on concrete outputs.  Calls to [logger] are not
    modelled. *)

From Stdlib Require Import ZArith String Ascii List Bool Lia.
From Stdlib Require Import Strings.Byte DecimalString SpecFloat.
From stdpp Require Import gmap strings list.
Import ListNotations.

Local Open Scope string_scope.
Local Open Scope Z_scope.
Local Open Scope list_scope.

(** ** Python text *)

Module PyStr.

Definition code (c : ascii) : N := N_of_ascii c.

(** [str.isspace] on one code point below 256. *)
Definition isspace (c : ascii) : bool :=
  let n := code c in
  ((9 <=? n) && (n <=? 13) || (28 <=? n) && (n <=? 32)
   || (n =? 133) || (n =? 160))%N.

(** The line boundaries of [str.splitlines] below 256, [\r] apart:
    [\n], [\v], [\f], [\x1c], [\x1d], [\x1e] and [\x85]. *)
Definition islinebreak (c : ascii) : bool :=
  let n := code c in
  ((10 <=? n) && (n <=? 12) || (28 <=? n) && (n <=? 30) || (n =? 133))%N.

Definition is_cr (c : ascii) : bool := (code c =? 13)%N.
Definition is_lf (c : ascii) : bool := (code c =? 10)%N.

Fixpoint lstrip_chars (s : list ascii) : list ascii :=
  match s with
  | c :: r => if isspace c then lstrip_chars r else s
  | [] => []
  end.

Definition strip_chars (s : list ascii) : list ascii :=
  rev (lstrip_chars (rev (lstrip_chars s))).

(** [s.strip()] *)
Definition strip (s : string) : string :=
  string_of_list_ascii (strip_chars (list_ascii_of_string s)).

(** [cur] holds the current line, last character first. *)
Fixpoint splitlines_from (cur : list ascii) (s : list ascii)
  : list (list ascii) :=
  match s with
  | [] => match cur with [] => [] | _ => [rev cur] end
  | c :: r =>
      if is_cr c then
        match r with
        | c' :: r' =>
            if is_lf c' then rev cur :: splitlines_from [] r'
            else rev cur :: splitlines_from [] r
        | [] => [rev cur]
        end
      else if islinebreak c then rev cur :: splitlines_from [] r
      else splitlines_from (c :: cur) r
  end.

(** [s.splitlines()] *)
Definition splitlines (s : string) : list string :=
  List.map string_of_list_ascii (splitlines_from [] (list_ascii_of_string s)).

(** [bool(s)] for a string: non-empty. *)
Definition nonempty (s : string) : bool :=
  match s with EmptyString => false | String _ _ => true end.

(** [c in s] for a one-character [c]. *)
Fixpoint contains (c : ascii) (s : string) : bool :=
  match s with
  | EmptyString => false
  | String a r => if Ascii.eqb a c then true else contains c r
  end.

(** [s.split(c, 1)] for a one-character separator: [None] when the
    separator does not occur (Python then returns the one-element list
    [[s]]), else the text before the first separator and the text after
    it. *)
Fixpoint split1 (c : ascii) (s : string) : option (string * string) :=
  match s with
  | EmptyString => None
  | String a r =>
      if Ascii.eqb a c then Some (EmptyString, r)
      else match split1 c r with
           | Some (h, t) => Some (String a h, t)
           | None => None
           end
  end.


Definition LF : string := String (ascii_of_N 10) EmptyString.

(** The double quote, as a character and as a one-character text. *)
Definition dq : ascii := ascii_of_N 34.
Definition DQ : string := String dq EmptyString.

(** [s.replace(a, b)] for one-character [a] and [b]. *)
Fixpoint replace (a b : ascii) (s : string) : string :=
  match s with
  | EmptyString => EmptyString
  | String c r => String (if Ascii.eqb c a then b else c) (replace a b r)
  end.

End PyStr.

(** ** JSON values as Python sees them *)

(** What [json.loads] returns, for texts whose numbers are integers: [None],
    [bool], [int], [str], [list], and [dict] with its items in insertion
    order.  A [float] would be one more scalar that is neither a [dict] nor a
    [str]; no branch of the module tells it from an [int]. *)
#[warnings="-register-all"]
Inductive pyval : Type :=
| PNone
| PBool (b : bool)
| PInt (z : Z)
| PStr (s : string)
| PList (l : list pyval)
| PDict (d : list (string * pyval)).

Module Py.

(** [bool(v)]: what [or] and [if] test. *)
Definition truthy (v : pyval) : bool :=
  match v with
  | PNone => false
  | PBool b => b
  | PInt z => negb (z =? 0)
  | PStr s => PyStr.nonempty s
  | PList l => match l with [] => false | _ => true end
  | PDict d => match d with [] => false | _ => true end
  end.

(** [a or b] *)
Definition or (a b : pyval) : pyval := if truthy a then a else b.

(** [d.get(k)] on a dictionary: the value, [None] when the key is absent. *)
Fixpoint get (d : list (string * pyval)) (k : string) : pyval :=
  match d with
  | [] => PNone
  | (k', v) :: r => if String.eqb k' k then v else get r k
  end.

(** [d[k] = v]: the value replaced where the key is, appended otherwise. *)
Fixpoint setitem (d : list (string * pyval)) (k : string) (v : pyval)
  : list (string * pyval) :=
  match d with
  | [] => [(k, v)]
  | (k', v') :: r =>
      if String.eqb k' k then (k', v) :: r else (k', v') :: setitem r k v
  end.

(** [k in d] *)
Fixpoint has_key (d : list (string * pyval)) (k : string) : bool :=
  match d with
  | [] => false
  | (k', _) :: r => if String.eqb k' k then true else has_key r k
  end.

Definition is_dict (v : pyval) : bool :=
  match v with PDict _ => true | _ => false end.

End Py.

(** The exceptions the module can raise: [ValueError] from the checks of
    [query_model], [AttributeError] from [obj.get] on a value that is no
    [dict], and [ProcessLookupError] from [proc.kill()] on a process that has
    ended. *)
Inductive exn : Type :=
| ValueError (msg : string)
| AttributeError (msg : string)
| ProcessLookupError.

(** The outcome of a call: a value or a raised exception. *)
Inductive outcome (A : Type) : Type :=
| Return (a : A)
| Raise (e : exn).
Arguments Return {A} a.
Arguments Raise {A} e.

(** ** A decoder and an encoder for a fragment of JSON

    [Json.loads] follows the grammar [json.loads] accepts, restricted to
    texts without fractions, exponents, [\u] escapes and the literals [NaN]
    and [Infinity]; on a text outside that fragment it answers [None], as it
    does on a text that is not JSON.  [JsonOut.dumps] writes a value as
    [json.dumps(v, ensure_ascii=False)] does.  Both serve to run the parsers
    on concrete outputs; the theorems about the parsers hold for any decoder
    and encoder. *)

Module Json.

Definition is_ws (c : ascii) : bool :=
  let n := PyStr.code c in ((n =? 32) || (n =? 9) || (n =? 10) || (n =? 13))%N.

Fixpoint skip_ws (s : list ascii) : list ascii :=
  match s with
  | c :: r => if is_ws c then skip_ws r else s
  | [] => []
  end.

Definition digit_of (c : ascii) : option Z :=
  let n := PyStr.code c in
  if ((48 <=? n) && (n <=? 57))%N then Some (Z.of_N n - 48) else None.

(** The digits at the head of [s], folded into [acc]. *)
Fixpoint digits (acc : Z) (s : list ascii) : Z * list ascii :=
  match s with
  | c :: r =>
      match digit_of c with
      | Some d => digits (10 * acc + d) r
      | None => (acc, s)
      end
  | [] => (acc, [])
  end.

(** After an integer, a fraction or an exponent would make a float. *)
Definition float_follows (s : list ascii) : bool :=
  match s with
  | c :: _ => (Ascii.eqb c "." || Ascii.eqb c "e" || Ascii.eqb c "E")%bool
  | [] => false
  end.

(** [0] or a digit string without leading zero. *)
Definition natural (s : list ascii) : option (Z * list ascii) :=
  match s with
  | c :: r =>
      match digit_of c with
      | Some 0 =>
          match r with
          | c' :: _ => match digit_of c' with
                       | Some _ => None
                       | None => Some (0, r)
                       end
          | [] => Some (0, r)
          end
      | Some d => Some (digits d r)
      | None => None
      end
  | [] => None
  end.

Definition number (s : list ascii) : option (pyval * list ascii) :=
  let '(neg, s') := match s with
                    | "-"%char :: r => (true, r)
                    | _ => (false, s)
                    end in
  match natural s' with
  | Some (n, r) =>
      if float_follows r then None
      else Some (PInt (if neg then - n else n), r)
  | None => None
  end.

Definition unescape (c : ascii) : option ascii :=
  if Ascii.eqb c PyStr.dq then Some PyStr.dq else
  match c with
  | "\"%char => Some "\"%char
  | "/"%char => Some "/"%char
  | "b"%char => Some (ascii_of_N 8)
  | "f"%char => Some (ascii_of_N 12)
  | "n"%char => Some (ascii_of_N 10)
  | "r"%char => Some (ascii_of_N 13)
  | "t"%char => Some (ascii_of_N 9)
  | _ => None
  end.

(** The body of a string literal, after its opening quote; [acc] holds the
    characters read, last first. *)
Fixpoint string_body (acc : list ascii) (s : list ascii)
  : option (string * list ascii) :=
  match s with
  | [] => None
  | c :: r =>
      if Ascii.eqb c PyStr.dq then Some (string_of_list_ascii (rev acc), r)
      else if Ascii.eqb c "\" then
        match r with
        | e :: r' =>
            match unescape e with
            | Some a => string_body (a :: acc) r'
            | None => None
            end
        | [] => None
        end
      else if (PyStr.code c <? 32)%N then None
      else string_body (c :: acc) r
  end.

Fixpoint value (fuel : nat) (s : list ascii) : option (pyval * list ascii) :=
  match fuel with
  | O => None
  | S fuel' =>
      match skip_ws s with
      | [] => None
      | c :: r0 =>
      if Ascii.eqb c PyStr.dq then
        match string_body [] r0 with
        | Some (t, r') => Some (PStr t, r')
        | None => None
        end
      else
      match c :: r0 with
      | "n"%char :: "u"%char :: "l"%char :: "l"%char :: r => Some (PNone, r)
      | "t"%char :: "r"%char :: "u"%char :: "e"%char :: r =>
          Some (PBool true, r)
      | "f"%char :: "a"%char :: "l"%char :: "s"%char :: "e"%char :: r =>
          Some (PBool false, r)
      | "["%char :: r =>
          match skip_ws r with
          | "]"%char :: r' => Some (PList [], r')
          | _ => elements fuel' [] r
          end
      | "{"%char :: r =>
          match skip_ws r with
          | "}"%char :: r' => Some (PDict [], r')
          | _ => members fuel' [] r
          end
      | s' => number s'
      end
      end
  end
with elements (fuel : nat) (acc : list pyval) (s : list ascii)
  : option (pyval * list ascii) :=
  match fuel with
  | O => None
  | S fuel' =>
      match value fuel' s with
      | Some (v, r) =>
          match skip_ws r with
          | ","%char :: r' => elements fuel' (v :: acc) r'
          | "]"%char :: r' => Some (PList (rev (v :: acc)), r')
          | _ => None
          end
      | None => None
      end
  end
with members (fuel : nat) (acc : list (string * pyval)) (s : list ascii)
  : option (pyval * list ascii) :=
  match fuel with
  | O => None
  | S fuel' =>
      match skip_ws s with
      | c :: r =>
          if negb (Ascii.eqb c PyStr.dq) then None else
          match string_body [] r with
          | Some (k, r1) =>
              match skip_ws r1 with
              | ":"%char :: r2 =>
                  match value fuel' r2 with
                  | Some (v, r3) =>
                      match skip_ws r3 with
                      | ","%char :: r4 => members fuel' (Py.setitem acc k v) r4
                      | "}"%char :: r4 => Some (PDict (Py.setitem acc k v), r4)
                      | _ => None
                      end
                  | None => None
                  end
              | _ => None
              end
          | None => None
          end
      | [] => None
      end
  end.

(** [json.loads(s)] on the fragment: [None] stands for [JSONDecodeError]. *)
Definition loads (s : string) : option pyval :=
  let cs := list_ascii_of_string s in
  match value (S (List.length cs)) cs with
  | Some (v, r) => match skip_ws r with [] => Some v | _ => None end
  | None => None
  end.

End Json.

Module JsonOut.

Definition hex_digit (n : N) : ascii :=
  if (n <? 10)%N then ascii_of_N (48 + n) else ascii_of_N (87 + n).

(** One character of a string, as [json.dumps] with [ensure_ascii=False]
    writes it. *)
Definition escape (c : ascii) : string :=
  let n := PyStr.code c in
  if Ascii.eqb c PyStr.dq then "\" +:+ PyStr.DQ
  else if Ascii.eqb c "\" then "\\"
  else if (n =? 10)%N then "\n"
  else if (n =? 13)%N then "\r"
  else if (n =? 9)%N then "\t"
  else if (n =? 8)%N then "\b"
  else if (n =? 12)%N then "\f"
  else if (n <? 32)%N then
    "\u00" +:+ String (hex_digit (n / 16)) (String (hex_digit (n mod 16)) EmptyString)
  else String c EmptyString.

Fixpoint escape_all (s : string) : string :=
  match s with
  | EmptyString => EmptyString
  | String c r => escape c +:+ escape_all r
  end.

Definition quote (s : string) : string :=
  PyStr.DQ +:+ escape_all s +:+ PyStr.DQ.

Definition int_text (z : Z) : string := NilZero.string_of_int (Z.to_int z).

Fixpoint join (sep : string) (l : list string) : string :=
  match l with
  | [] => EmptyString
  | [x] => x
  | x :: r => x +:+ sep +:+ join sep r
  end.

(** [json.dumps(v, ensure_ascii=False)] *)
Fixpoint dumps (v : pyval) : string :=
  match v with
  | PNone => "null"
  | PBool true => "true"
  | PBool false => "false"
  | PInt z => int_text z
  | PStr s => quote s
  | PList l => "[" +:+ join ", " (List.map dumps l) +:+ "]"
  | PDict d =>
      "{" +:+ join ", " (List.map (fun kv => quote (fst kv) +:+ ": " +:+ dumps (snd kv)) d)
      +:+ "}"
  end.

End JsonOut.



(** ** The output parsers *)

Section Parsers.

(** [json.loads]: [None] stands for [json.JSONDecodeError].  The texts on
    which [json.loads] raises something else ([RecursionError] on a deep
    nesting, [ValueError] on an integer of thousands of digits) are outside
    the model, as are the texts that hold a float. *)
Variable json_loads : string -> option pyval.
(** [json.dumps(_, ensure_ascii=False)] *)
Variable json_dumps : pyval -> string.

(** [type(v).__name__], for the message of an [AttributeError]. *)
Definition type_name (v : pyval) : string :=
  match v with
  | PNone => "NoneType"
  | PBool _ => "bool"
  | PInt _ => "int"
  | PStr _ => "str"
  | PList _ => "list"
  | PDict _ => "dict"
  end.

Definition no_attribute (v : pyval) (attr : string) : exn :=
  AttributeError ("'" +:+ type_name v +:+ "' object has no attribute '"
                  +:+ attr +:+ "'").

(** [obj.get("message") or obj.get("data") or obj.get("event")] *)
Definition codex_payload (obj : list (string * pyval)) : pyval :=
  Py.or (Py.or (Py.get obj "message") (Py.get obj "data")) (Py.get obj "event").

(** [role in (None, "assistant")] *)
Definition role_accepted (role : pyval) : bool :=
  match role with
  | PNone => true
  | PStr r => String.eqb r "assistant"
  | _ => false
  end.

(** One turn of the loop of [_extract_last_message_from_codex_jsonl]: the
    value of [last_content] after [line].  Only [JSONDecodeError] is caught;
    [obj.get] on a decoded value that is no [dict] raises. *)
Definition codex_line (last_content : option string) (line : string)
  : outcome (option string) :=
  match json_loads line with
  | None => Return last_content
  | Some obj =>
      match obj with
      | PDict o =>
          match codex_payload o with
          | PDict msg =>
              let role := Py.get msg "role" in
              match Py.get msg "content" with
              | PStr content =>
                  if role_accepted role then Return (Some content)
                  else Return last_content
              | _ => Return last_content
              end
          | _ => Return last_content
          end
      | _ => Raise (no_attribute obj "get")
      end
  end.

Fixpoint codex_lines (lines : list string) (last_content : option string)
  : outcome (option string) :=
  match lines with
  | [] => Return last_content
  | line :: rest =>
      match codex_line last_content line with
      | Return last_content' => codex_lines rest last_content'
      | Raise e => Raise e
      end
  end.

(** [[l for l in output.splitlines() if l.strip()]] *)
Definition nonblank_lines (output : string) : list string :=
  List.filter (fun l => PyStr.nonempty (PyStr.strip l)) (PyStr.splitlines output).

(** [last_content or output.strip()] *)
Definition content_or_raw (last_content : option string) (output : string)
  : string :=
  match last_content with
  | Some c => if PyStr.nonempty c then c else PyStr.strip output
  | None => PyStr.strip output
  end.

Definition _extract_last_message_from_codex_jsonl (output : string)
  : outcome string :=
  match codex_lines (nonblank_lines output) None with
  | Return last_content => Return (content_or_raw last_content output)
  | Raise e => Raise e
  end.

(** The first block of [_extract_claude_text]: [Some text] when it returns. *)
Definition claude_completion (payload : list (string * pyval))
  : option string :=
  let completion :=
    Py.or (Py.or (Py.get payload "completion") (Py.get payload "result"))
          (PDict []) in
  match completion with
  | PDict c =>
      match Py.or (Py.get c "text") (Py.get c "content") with
      | PStr text => Some text
      | _ => None
      end
  | _ => None
  end.

(** The second block. *)
Definition claude_output (payload : list (string * pyval)) : option string :=
  match Py.or (Py.get payload "output") (Py.get payload "text") with
  | PStr output => Some output
  | _ => None
  end.

(** The third block. *)
Definition claude_message (payload : list (string * pyval)) : option string :=
  match Py.get payload "message" with
  | PDict message =>
      match Py.get message "content" with
      | PStr content => Some content
      | _ => None
      end
  | _ => None
  end.

Definition _extract_claude_text (payload : pyval) : string :=
  match payload with
  | PDict p =>
      match claude_completion p with
      | Some text => text
      | None =>
          match claude_output p with
          | Some output => output
          | None =>
              match claude_message p with
              | Some content => content
              | None => json_dumps payload
              end
          end
      end
  | _ => json_dumps payload
  end.

End Parsers.


(** ** Configuration ([config.py]) *)

Record config : Type := {
  CODEX_CLI : string;
  CLAUDE_CLI : string;
  GEMINI_CLI : string;
  GROK_CLI : string;
  DEFAULT_TIMEOUT : spec_float
}.

(** The values [config.py] takes when the environment sets none:
    the four tool names and [float("120")]. *)
Definition default_config : config := {|
  CODEX_CLI := "codex";
  CLAUDE_CLI := "claude";
  GEMINI_CLI := "gemini";
  GROK_CLI := "grok";
  DEFAULT_TIMEOUT := S754_finite false 15 3
|}.

(** [bool(x)] for a float: zero of either sign is false, NaN is true. *)
Definition float_truthy (x : spec_float) : bool :=
  match x with
  | S754_zero _ => false
  | _ => true
  end.

(** ** The world outside: processes and the console *)

(** What the module does to the world, in the order it does it. *)
Inductive event : Type :=
| Spawn (cmd : list string)
| Communicate (timeout : spec_float)
| Kill
| Print (text : string).

(** How [asyncio.wait_for(proc.communicate(), timeout)] ends: the process
    exits with a return code and the bytes of its two streams, or the wait
    raises [asyncio.TimeoutError].  In the second case the process is still
    running when [proc.kill()] is called ([TimedOut]), or it has ended in the
    meantime ([TimedOutGone]) and [proc.kill()] finds no process.  The launch
    itself is taken to succeed: the tool is installed and can be executed,
    and the exceptions of [asyncio.create_subprocess_exec] ([OSError] for a
    tool that is missing, [ValueError] for an argument with a null
    character) are outside the model. *)
Inductive completion : Type :=
| Exited (returncode : Z) (stdout_b stderr_b : list byte)
| TimedOut
| TimedOutGone.

Definition is_spawn (e : event) : bool :=
  match e with Spawn _ => true | _ => false end.

(** The number of processes launched so far. *)
Definition spawned (journal : list event) : nat :=
  List.length (List.filter is_spawn journal).

(** A computation reads and extends the journal, and returns or raises. *)
Definition io (A : Type) : Type := list event -> outcome A * list event.

Definition ret {A : Type} (a : A) : io A := fun w => (Return a, w).

Definition raise {A : Type} (e : exn) : io A := fun w => (Raise e, w).

Definition bind {A B : Type} (m : io A) (k : A -> io B) : io B :=
  fun w =>
    match m w with
    | (Return a, w') => k a w'
    | (Raise e, w') => (Raise e, w')
    end.

Definition emit (e : event) : io unit := fun w => (Return tt, w ++ [e]).

(** A call to a function that touches nothing outside. *)
Definition pure {A : Type} (r : outcome A) : io A := fun w => (r, w).

Declare Scope io_scope.
Delimit Scope io_scope with io.
Notation "x <- m ;; k" := (bind m (fun x => k))
  (at level 100, m at next level, right associativity) : io_scope.
Notation "m ;; k" := (bind m (fun _ => k))
  (at level 100, right associativity) : io_scope.

(** The result of a query: the dictionary [{"content": content}]. *)
Record reply : Type := { content : string }.

(** A chat message, [Dict[str, str]]. *)
Definition message : Type := list (string * string).

(** [m.get(k, default)] *)
Fixpoint message_get (m : message) (k default : string) : string :=
  match m with
  | [] => default
  | (k', v) :: r => if String.eqb k' k then v else message_get r k default
  end.

Section Adapter.

Variable json_loads : string -> option pyval.
Variable json_dumps : pyval -> string.
(** [b.decode("utf-8", errors="ignore")] *)
Variable utf8_ignore : list byte -> string.
Variable cfg : config.
(** The behaviour of the process launched as number [n] (counting from 0)
    with command [cmd], awaited with [timeout]. *)
Variable os : nat -> list string -> spec_float -> completion.

Local Open Scope io_scope.

(** [b.decode("utf-8", errors="ignore") if b else ""] *)
Definition decode_or_empty (b : list byte) : string :=
  match b with
  | [] => EmptyString
  | _ => utf8_ignore b
  end.

Definition _run_cli (cmd : list string) (timeout : spec_float)
  : io (Z * string * string) :=
  fun w =>
    let proc := spawned w in
    (emit (Spawn cmd) ;;
     emit (Communicate timeout) ;;
     match os proc cmd timeout with
     | TimedOut =>
         emit Kill ;;
         ret (-1, EmptyString, "timeout")
     | TimedOutGone => raise ProcessLookupError
     | Exited returncode stdout_b stderr_b =>
         let stdout := decode_or_empty stdout_b in
         let stderr := decode_or_empty stderr_b in
         ret (returncode, stdout, stderr)
     end) w.

Definition _query_codex (model_name prompt : string) (timeout : spec_float)
  : io (option reply) :=
  let cmd := [CODEX_CLI cfg; "exec"; prompt; "-m"; model_name; "--json"] in
  r <- _run_cli cmd timeout ;;
  let '(code, out, err) := r in
  if negb (code =? 0) then
    emit (Print ("Codex error (" +:+ model_name +:+ "): " +:+ err)) ;;
    ret None
  else
    content <- pure (_extract_last_message_from_codex_jsonl json_loads out) ;;
    ret (Some {| content := content |}).

Definition _query_claude (model_name prompt : string) (timeout : spec_float)
  : io (option reply) :=
  let cmd := [CLAUDE_CLI cfg; "--print"; "--output-format"; "json";
              "--model"; model_name; prompt] in
  r <- _run_cli cmd timeout ;;
  let '(code, out, err) := r in
  if negb (code =? 0) then
    emit (Print ("Claude error (" +:+ model_name +:+ "): " +:+ err)) ;;
    ret None
  else
    match json_loads out with
    | None => ret (Some {| content := PyStr.strip out |})
    | Some payload =>
        let content := _extract_claude_text json_dumps payload in
        ret (Some {| content := content |})
    end.

Definition _query_gemini (model_name prompt : string) (timeout : spec_float)
  : io (option reply) :=
  let cmd := [GEMINI_CLI cfg; "-p"; prompt; "-m"; model_name] in
  r <- _run_cli cmd timeout ;;
  let '(code, out, err) := r in
  if negb (code =? 0) then
    emit (Print ("Gemini error (" +:+ model_name +:+ "): " +:+ err)) ;;
    ret None
  else ret (Some {| content := PyStr.strip out |}).

Definition _query_grok (model_name prompt : string) (timeout : spec_float)
  : io (option reply) :=
  let cmd := [GROK_CLI cfg; "-p"; prompt; "-m"; model_name; "-q"] in
  r <- _run_cli cmd timeout ;;
  let '(code, out, err) := r in
  if negb (code =? 0) then
    emit (Print ("Grok error (" +:+ model_name +:+ "): " +:+ err)) ;;
    ret None
  else ret (Some {| content := PyStr.strip out |}).

(** [timeout or DEFAULT_TIMEOUT], for [timeout : Optional[float]] *)
Definition timeout_or_default (timeout : option spec_float) : spec_float :=
  match timeout with
  | Some t => if float_truthy t then t else DEFAULT_TIMEOUT cfg
  | None => DEFAULT_TIMEOUT cfg
  end.

(** [not messages] holds exactly when [messages] has no last item, and
    [provider, model_name = model.split(":", 1)] raises [ValueError] when the
    split has one part only. *)
Definition query_model (model : string) (messages : list message)
           (timeout : option spec_float) : io (option reply) :=
  let timeout := timeout_or_default timeout in
  match last messages with
  | None => raise (ValueError "messages must contain at least one item")
  | Some last_message =>
      let prompt := message_get last_message "content" EmptyString in
      if negb (PyStr.nonempty prompt) then
        raise (ValueError "last message must contain non-empty 'content'")
      else if negb (PyStr.contains ":" model) then
        raise (ValueError ("Model identifier must be 'provider:model', got: "
                           +:+ model))
      else
        match PyStr.split1 ":" model with
        | None =>
            raise (ValueError "not enough values to unpack (expected 2, got 1)")
        | Some (provider, model_name) =>
            if String.eqb provider "codex" then
              _query_codex model_name prompt timeout
            else if String.eqb provider "claude" then
              _query_claude model_name prompt timeout
            else if String.eqb provider "gemini" then
              _query_gemini model_name prompt timeout
            else if String.eqb provider "grok" then
              _query_grok model_name prompt timeout
            else
              raise (ValueError ("Unknown provider in model identifier: "
                                 +:+ provider))
        end
  end.

(** [asyncio.gather( *tasks, return_exceptions=False)].  The coroutines share
    nothing but the journal and each launches at most one process, so they
    are run here one after the other, in the order of the list, which is the
    order in which the event loop starts them; the answer of the world to
    each process is [os]'s to decide.  [run_all] gives the outcome of every
    coroutine, and the journal once all of them have ended. *)
Fixpoint run_all {A : Type} (tasks : list (io A)) (w : list event)
  : list (outcome A) * list event :=
  match tasks with
  | [] => ([], w)
  | t :: rest =>
      let '(r, w1) := t w in
      let '(rs, w2) := run_all rest w1 in
      (r :: rs, w2)
  end.

Definition is_raise {A : Type} (r : outcome A) : bool :=
  match r with
  | Raise _ => true
  | Return _ => false
  end.

(** The values of the coroutines that returned. *)
Definition returned {A : Type} (rs : list (outcome A)) : list A :=
  omap (fun r => match r with Return a => Some a | Raise _ => None end) rs.

(** The exceptions of the coroutines that raised, in the order of the list. *)
Definition raised {A : Type} (rs : list (outcome A)) : list exn :=
  omap (fun r => match r with Raise e => Some e | Return _ => None end) rs.

(** When several coroutines raise, [gather] hands over the exception it sees
    first, which depends on when each coroutine raises: that is the world's
    to decide.  [seen_first] gives, for the exceptions raised, in the order
    of the list, the position of the one seen first. *)
Variable seen_first : list exn -> nat.

(** What [gather] hands to its caller: the list of the values when every
    coroutine returned, and otherwise the exception it saw first. *)
Definition collect {A : Type} (rs : list (outcome A)) : outcome (list A) :=
  match raised rs with
  | [] => Return (returned rs)
  | e :: es => Raise (List.nth (seen_first (e :: es)) (e :: es) e)
  end.

Definition gather {A : Type} (tasks : list (io A)) : io (list A) :=
  fun w => let '(rs, w') := run_all tasks w in (collect rs, w').

(** [{m: r for m, r in zip(models, results)}]: the pairs are stored one
    after the other, a later one over an earlier one with the same key. *)
Definition dict_of_pairs (pairs : list (string * option reply))
  : gmap string (option reply) :=
  foldl (fun d mr => <[mr.1 := mr.2]> d) ∅ pairs.

Definition query_models_parallel (models : list string)
           (messages : list message) : io (gmap string (option reply)) :=
  let tasks := List.map (fun m => query_model m messages None) models in
  results <- gather tasks ;;
  ret (dict_of_pairs (zip models results)).

End Adapter.

(** JSON texts are written below with an apostrophe where JSON has a double
    quote: [js] puts the double quotes back. *)
Definition js (s : string) : string := PyStr.replace "'" PyStr.dq s.

(** Bytes that are ASCII, decoded; the others dropped.  On ASCII bytes this
    is [bytes.decode("utf-8", errors="ignore")]. *)
Definition ascii_ignore (b : list byte) : string :=
  string_of_list_ascii
    (List.filter (fun c => (PyStr.code c <? 128)%N) (List.map ascii_of_byte b)).

Definition bytes_of (s : string) : list byte := list_byte_of_string s.


(** ** The vocabulary of the specification *)

(** The four providers and, for each, its prefix, its adapter, the command
    line its adapter builds and the name its diagnostic prints. *)
Inductive provider : Type := Codex | Claude | Gemini | Grok.

Definition prefix (p : provider) : string :=
  match p with
  | Codex => "codex"
  | Claude => "claude"
  | Gemini => "gemini"
  | Grok => "grok"
  end.

Definition label (p : provider) : string :=
  match p with
  | Codex => "Codex"
  | Claude => "Claude"
  | Gemini => "Gemini"
  | Grok => "Grok"
  end.

Definition command (cfg : config) (p : provider) (model_name prompt : string)
  : list string :=
  match p with
  | Codex => [CODEX_CLI cfg; "exec"; prompt; "-m"; model_name; "--json"]
  | Claude => [CLAUDE_CLI cfg; "--print"; "--output-format"; "json";
               "--model"; model_name; prompt]
  | Gemini => [GEMINI_CLI cfg; "-p"; prompt; "-m"; model_name]
  | Grok => [GROK_CLI cfg; "-p"; prompt; "-m"; model_name; "-q"]
  end.

Definition adapter (json_loads : string -> option pyval)
           (json_dumps : pyval -> string) (utf8_ignore : list byte -> string)
           (cfg : config) (os : nat -> list string -> spec_float -> completion)
           (p : provider) : string -> string -> spec_float -> io (option reply) :=
  match p with
  | Codex => _query_codex json_loads utf8_ignore cfg os
  | Claude => _query_claude json_loads json_dumps utf8_ignore cfg os
  | Gemini => _query_gemini utf8_ignore cfg os
  | Grok => _query_grok utf8_ignore cfg os
  end.

(** The diagnostic an adapter prints when the tool fails. *)
Definition diagnostic (p : provider) (model_name err : string) : string :=
  label p +:+ " error (" +:+ model_name +:+ "): " +:+ err.

(** The provider a prefix names, if any. *)
Definition provider_of (name : string) : option provider :=
  if String.eqb name "codex" then Some Codex
  else if String.eqb name "claude" then Some Claude
  else if String.eqb name "gemini" then Some Gemini
  else if String.eqb name "grok" then Some Grok
  else None.

(** The text of a model identifier before its first [:]. *)
Definition provider_prefix (model : string) : option string :=
  match PyStr.split1 ":" model with
  | Some (p, _) => Some p
  | None => None
  end.


(** The content a line of a JSON-lines output offers: the line decodes to a
    mapping, its payload is a mapping whose [content] is a string, and the
    payload's [role] is absent, null or ["assistant"]. *)
Definition line_candidate (json_loads : string -> option pyval) (line : string)
  : option string :=
  match json_loads line with
  | Some (PDict o) =>
      match codex_payload o with
      | PDict msg =>
          match Py.get msg "content" with
          | PStr c => if role_accepted (Py.get msg "role") then Some c else None
          | _ => None
          end
      | _ => None
      end
  | _ => None
  end.

(** Every line that is JSON is a JSON object. *)
Definition object_lines (json_loads : string -> option pyval)
           (lines : list string) : Prop :=
  forall line v, In line lines -> json_loads line = Some v -> Py.is_dict v = true.

(** The same, as the specification words it: the role is absent or
    ["assistant"]. *)
Definition stated_candidate (json_loads : string -> option pyval)
           (line : string) : option string :=
  match json_loads line with
  | Some (PDict o) =>
      match codex_payload o with
      | PDict msg =>
          match Py.get msg "content" with
          | PStr c =>
              if negb (Py.has_key msg "role") then Some c
              else match Py.get msg "role" with
                   | PStr r => if String.eqb r "assistant" then Some c else None
                   | _ => None
                   end
          | _ => None
          end
      | _ => None
      end
  | _ => None
  end.

(** The first value that is not null, null when there is none. *)
Fixpoint first_non_null (vs : list pyval) : pyval :=
  match vs with
  | [] => PNone
  | PNone :: r => first_non_null r
  | v :: _ => v
  end.

(** The payload of a line as the specification words it: the first non-null
    value among [message], [data] and [event]. *)
Definition stated_payload (obj : list (string * pyval)) : pyval :=
  first_non_null [Py.get obj "message"; Py.get obj "data"; Py.get obj "event"].

(** A value on which [or] and "first non-null" agree. *)
Definition null_or_truthy (v : pyval) : bool :=
  match v with
  | PNone => true
  | _ => Py.truthy v
  end.

(** A value as [or] sees it: a falsy value counts as null. *)
Definition nullify (v : pyval) : pyval := if Py.truthy v then v else PNone.

(** Two readings of "the field [a] or the field [b]": the first that is not
    null, and the first that is truthy. *)
Definition pick_non_null (a b : pyval) : pyval := first_non_null [a; b].
Definition pick_truthy (a b : pyval) : pyval := first_non_null [nullify a; b].

(** The extraction from a single JSON object as the specification words it,
    in four steps tried in order, [pick] being the reading of "or". *)
Definition stated_claude_text (pick : pyval -> pyval -> pyval)
           (json_dumps : pyval -> string) (payload : pyval) : string :=
  match payload with
  | PDict p =>
      let a :=
        match pick (Py.get p "completion") (Py.get p "result") with
        | PDict c =>
            match pick (Py.get c "text") (Py.get c "content") with
            | PStr s => Some s
            | _ => None
            end
        | _ => None
        end in
      let b :=
        match pick (Py.get p "output") (Py.get p "text") with
        | PStr s => Some s
        | _ => None
        end in
      let c :=
        match Py.get p "message" with
        | PDict m => match Py.get m "content" with
                     | PStr s => Some s
                     | _ => None
                     end
        | _ => None
        end in
      match a, b, c with
      | Some s, _, _ => s
      | None, Some s, _ => s
      | None, None, Some s => s
      | None, None, None => json_dumps payload
      end
  | _ => json_dumps payload
  end.

(** Outputs on which the code and the wording of the specification part. *)
Definition empty_content_line : string := js "{'message':{'content':''}}".
Definition empty_message_line : string :=
  js "{'message':{},'data':{'content':'Y'}}".
Definition empty_output_text : string :=
  js "{'output':'','message':{'content':'m'}}".
Definition empty_then_number : string :=
  js "{'message':{'role':'assistant','content':''}}" +:+ PyStr.LF +:+ "42".

(** The two outputs of the single-object example of the specification. *)
Definition hello_output : string := js "{'output': 'hello'}".
Definition hi_output : string := js "{'completion':{'text':'hi'}}".

(** The two lines of the example of the specification. *)
Definition user_line : string := js "{'message':{'role':'user','content':'X'}}".
Definition assistant_line : string :=
  js "{'message':{'role':'assistant','content':'Y'}}".

(** The timeout as the specification words it: the caller's when there is
    one. *)
Definition stated_timeout (cfg : config) (timeout : option spec_float)
  : spec_float :=
  match timeout with
  | Some t => t
  | None => DEFAULT_TIMEOUT cfg
  end.

(** The timeouts the journal shows the module waited with. *)
Definition awaited (journal : list event) : list spec_float :=
  omap (fun e => match e with Communicate t => Some t | _ => None end) journal.

(** ** A world to run the module in *)

(** Every tool exits at once with the same return code and streams. *)
Definition tool_exits (rc : Z) (out err : string)
  : nat -> list string -> spec_float -> completion :=
  fun _ _ _ => Exited rc (bytes_of out) (bytes_of err).

(** No tool ever finishes. *)
Definition tool_hangs : nat -> list string -> spec_float -> completion :=
  fun _ _ _ => TimedOut.

(** Every tool ends after its wait has timed out and before it is killed. *)
Definition tool_ends_late : nat -> list string -> spec_float -> completion :=
  fun _ _ _ => TimedOutGone.

(** The float [0.02], a timeout of 20 milliseconds. *)
Definition short_timeout : spec_float :=
  S754_finite false 5764607523034235 (-58).

(** The tool launched as number [n] prints the [n]-th of [outs] and exits
    with 0; past the end of [outs] it exits with 1. *)
Definition tool_prints (outs : list string)
  : nat -> list string -> spec_float -> completion :=
  fun n _ _ =>
    match nth_error outs n with
    | Some out => Exited 0 (bytes_of out) []
    | None => Exited 1 [] []
    end.

(** A history of one user message. *)
Definition ask (prompt : string) : list message :=
  [[("role", "user"); ("content", prompt)]].

(** [query_model] and [query_models_parallel] with the fragment codec and
    the default configuration. *)
Definition query_in (os : nat -> list string -> spec_float -> completion)
  : string -> list message -> option spec_float -> io (option reply) :=
  query_model Json.loads JsonOut.dumps ascii_ignore default_config os.

Definition query_all_in (os : nat -> list string -> spec_float -> completion)
  : list string -> list message -> io (gmap string (option reply)) :=
  query_models_parallel Json.loads JsonOut.dumps ascii_ignore default_config os
    (fun _ => O).

(** ** The rest of [config.py] *)



Definition DATA_DIR : string := "data/conversations".

(** ** What a journal shows *)

(** The processes killed and the diagnostics printed. *)
Definition kills (journal : list event) : nat :=
  List.length (List.filter (fun e => match e with Kill => true | _ => false end)
                 journal).


(** The tool of a provider, as configured. *)
Definition cli (cfg : config) (p : provider) : string :=
  match p with
  | Codex => CODEX_CLI cfg
  | Claude => CLAUDE_CLI cfg
  | Gemini => GEMINI_CLI cfg
  | Grok => GROK_CLI cfg
  end.

(** A model identifier made of the prefix of a provider, a colon and a model
    name. *)
Definition identifier (p : provider) (model_name : string) : string :=
  prefix p +:+ String ":" model_name.

(** A non-blank line that is JSON but no JSON object. *)
Definition non_object_line (json_loads : string -> option pyval)
           (line : string) : bool :=
  match json_loads line with
  | Some v => negb (Py.is_dict v)
  | None => false
  end.

(** Outputs to run the further properties on. *)
Definition progress_then_user : string :=
  "thinking..." +:+ PyStr.LF +:+ user_line.
Definition padded_answer : string := "  an answer " +:+ PyStr.LF.

(** * Properties *)

(** ** Text *)

Lemma contains_split1 (c : ascii) (s : string) :
  PyStr.contains c s = false <-> PyStr.split1 c s = None.
Proof.
  induction s as [|a r IH]; simpl; [tauto|].
  destruct (Ascii.eqb a c); [split; discriminate|].
  rewrite IH. destruct (PyStr.split1 c r) as [[h t]|]; split; congruence.
Qed.


Lemma split1_app (c : ascii) (h t : string) :
  PyStr.contains c h = false ->
  PyStr.split1 c (h +:+ String c t) = Some (h, t).
Proof.
  induction h as [|a r IH]; simpl; intros H.
  - rewrite Ascii.eqb_refl. reflexivity.
  - destruct (Ascii.eqb a c); [discriminate|]. rewrite (IH H). reflexivity.
Qed.

Lemma provider_of_prefix (p : provider) : provider_of (prefix p) = Some p.
Proof. destruct p; reflexivity. Qed.

Lemma provider_of_Some (name : string) (p : provider) :
  provider_of name = Some p -> name = prefix p.
Proof.
  unfold provider_of. intros H.
  repeat match type of H with
         | (if String.eqb ?a ?b then _ else _) = _ =>
             destruct (String.eqb_spec a b); [inversion H; subst; reflexivity|]
         end.
  discriminate.
Qed.

Lemma prefix_no_colon (p : provider) : PyStr.contains ":" (prefix p) = false.
Proof. destruct p; reflexivity. Qed.


(** ** The dispatch of [query_model] *)

Section Dispatch.

Variable json_loads : string -> option pyval.
Variable json_dumps : pyval -> string.
Variable utf8_ignore : list byte -> string.
Variable cfg : config.
Variable os : nat -> list string -> spec_float -> completion.

Local Abbreviation query :=
  (query_model json_loads json_dumps utf8_ignore cfg os).
Local Abbreviation adapt := (adapter json_loads json_dumps utf8_ignore cfg os).
Local Abbreviation run_cli := (_run_cli utf8_ignore os).
Local Abbreviation decode := (decode_or_empty utf8_ignore).

(** With a prompt and a known provider, [query_model] is the adapter. *)
Lemma query_model_known (p : provider) (model model_name prompt : string)
      (messages : list message) (last_message : message)
      (timeout : option spec_float) :
  last messages = Some last_message ->
  message_get last_message "content" EmptyString = prompt ->
  prompt <> EmptyString ->
  PyStr.split1 ":" model = Some (prefix p, model_name) ->
  query model messages timeout
  = adapt p model_name prompt (timeout_or_default cfg timeout).
Proof.
  intros Hl Hp Hne Hs. unfold query_model. rewrite Hl, Hp.
  destruct prompt as [|c r]; [congruence|]. simpl PyStr.nonempty. cbn [negb].
  destruct (PyStr.contains ":" model) eqn:Hc.
  - cbn [negb]. rewrite Hs. destruct p; reflexivity.
  - apply contains_split1 in Hc. congruence.
Qed.

(** With a prompt and a separator, an unknown provider is refused, and the
    journal is left as it was. *)
Lemma query_model_unknown (model pfx model_name : string)
      (messages : list message) (last_message : message)
      (timeout : option spec_float) (w : list event) :
  last messages = Some last_message ->
  message_get last_message "content" EmptyString <> EmptyString ->
  PyStr.split1 ":" model = Some (pfx, model_name) ->
  provider_of pfx = None ->
  query model messages timeout w
  = (Raise (ValueError ("Unknown provider in model identifier: " +:+ pfx)), w).
Proof.
  intros Hl Hne Hs Hp. unfold query_model. rewrite Hl.
  destruct (message_get last_message "content" EmptyString) as [|c r];
    [congruence|].
  simpl PyStr.nonempty. cbn [negb].
  destruct (PyStr.contains ":" model) eqn:Hc.
  - cbn [negb]. rewrite Hs. unfold provider_of in Hp.
    repeat match type of Hp with
           | (if ?b then _ else _) = _ => destruct b; [discriminate|]
           end.
    reflexivity.
  - apply contains_split1 in Hc. congruence.
Qed.

(** The three refusals that come before the provider is looked at. *)
Lemma query_model_no_messages (model : string) (messages : list message)
      (timeout : option spec_float) (w : list event) :
  last messages = None ->
  query model messages timeout w
  = (Raise (ValueError "messages must contain at least one item"), w).
Proof. intros Hl. unfold query_model. rewrite Hl. reflexivity. Qed.

Lemma query_model_empty_prompt (model : string) (messages : list message)
      (m : message) (timeout : option spec_float) (w : list event) :
  last messages = Some m ->
  message_get m "content" EmptyString = EmptyString ->
  query model messages timeout w
  = (Raise (ValueError "last message must contain non-empty 'content'"), w).
Proof. intros Hl Hp. unfold query_model. rewrite Hl, Hp. reflexivity. Qed.

Lemma query_model_no_separator (model : string) (messages : list message)
      (m : message) (timeout : option spec_float) (w : list event) :
  last messages = Some m ->
  message_get m "content" EmptyString <> EmptyString ->
  PyStr.contains ":" model = false ->
  query model messages timeout w
  = (Raise (ValueError ("Model identifier must be 'provider:model', got: "
                        +:+ model)), w).
Proof.
  intros Hl Hp Hc. unfold query_model. rewrite Hl.
  destruct (message_get m "content" EmptyString); [congruence|].
  simpl PyStr.nonempty. cbn [negb]. rewrite Hc. reflexivity.
Qed.

(** C1. [query_model] raises [ValueError], with the journal of the calls to
    the operating system left as it was (so before any process is launched),
    when [messages] is empty, when the content of the last message is empty
    or missing, when the identifier has no [:], and when the text before the
    first [:] is none of [codex], [claude], [gemini], [grok]. *)
Theorem query_model_invalid_argument (model : string) (messages : list message)
        (timeout : option spec_float) (w : list event) :
  messages = []
  \/ (exists m, last messages = Some m
                /\ message_get m "content" EmptyString = EmptyString)
  \/ PyStr.contains ":" model = false
  \/ (exists pfx, provider_prefix model = Some pfx /\ provider_of pfx = None) ->
  exists msg, query model messages timeout w = (Raise (ValueError msg), w).
Proof.
  intros H. unfold query_model at 1.
  destruct (last messages) as [m|] eqn:Hl; [|eexists; reflexivity].
  destruct (message_get m "content" EmptyString) as [|c r] eqn:Hp;
    [eexists; reflexivity|].
  simpl PyStr.nonempty. cbn [negb].
  destruct (PyStr.contains ":" model) eqn:Hc; [|eexists; reflexivity].
  cbn [negb].
  destruct H as [H | [H | [H | H]]].
  - subst. discriminate.
  - destruct H as (m' & Hm & He). congruence.
  - discriminate.
  - destruct H as (pfx & Hpfx & Hnone). unfold provider_prefix in Hpfx.
    destruct (PyStr.split1 ":" model) as [[h t]|]; [|discriminate].
    inversion Hpfx; subst. unfold provider_of in Hnone.
    repeat match type of Hnone with
           | (if ?b then _ else _) = _ => destruct b; [discriminate|]
           end.
    eexists; reflexivity.
Qed.

(** *** The process runner *)

Lemma run_cli_exited (cmd : list string) (t : spec_float) (w : list event)
      (rc : Z) (o e : list byte) :
  os (spawned w) cmd t = Exited rc o e ->
  run_cli cmd t w
  = (Return (rc, decode o, decode e), w ++ [Spawn cmd; Communicate t]).
Proof.
  intros H. unfold _run_cli, bind, emit, ret. rewrite H.
  rewrite <- app_assoc. reflexivity.
Qed.

Lemma run_cli_timed_out (cmd : list string) (t : spec_float) (w : list event) :
  os (spawned w) cmd t = TimedOut ->
  run_cli cmd t w
  = (Return (-1, EmptyString, "timeout"),
     w ++ [Spawn cmd; Communicate t; Kill]).
Proof.
  intros H. unfold _run_cli, bind, emit, ret. rewrite H.
  rewrite <- !app_assoc. reflexivity.
Qed.

Lemma run_cli_gone (cmd : list string) (t : spec_float) (w : list event) :
  os (spawned w) cmd t = TimedOutGone ->
  run_cli cmd t w
  = (Raise ProcessLookupError, w ++ [Spawn cmd; Communicate t]).
Proof.
  intros H. unfold _run_cli, bind, emit, raise. rewrite H.
  rewrite <- !app_assoc. reflexivity.
Qed.

(** *** The adapters *)

Ltac adapter_steps p :=
  destruct p; unfold adapter, command, diagnostic, label,
    _query_codex, _query_claude, _query_gemini, _query_grok, bind.

(** An adapter whose tool answers with the pair of a return code other than
    0 and an error text prints its diagnostic and returns [None]. *)
Lemma adapter_failure (p : provider) (model_name prompt : string)
      (t : spec_float) (w w' : list event) (rc : Z) (out err : string) :
  run_cli (command cfg p model_name prompt) t w = (Return (rc, out, err), w') ->
  rc <> 0 ->
  adapt p model_name prompt t w
  = (Return None, w' ++ [Print (diagnostic p model_name err)]).
Proof.
  intros H Hrc. apply Z.eqb_neq in Hrc.
  adapter_steps p; unfold command in H; rewrite H; cbn beta iota; rewrite Hrc;
    reflexivity.
Qed.

(** An adapter lets the exception of [proc.kill()] through. *)
Lemma adapter_gone (p : provider) (model_name prompt : string)
      (t : spec_float) (w : list event) :
  os (spawned w) (command cfg p model_name prompt) t = TimedOutGone ->
  adapt p model_name prompt t w
  = (Raise ProcessLookupError,
     w ++ [Spawn (command cfg p model_name prompt); Communicate t]).
Proof.
  intros Hos. pose proof (run_cli_gone _ _ _ Hos) as Hrun.
  adapter_steps p; unfold command in Hrun; rewrite Hrun; reflexivity.
Qed.

(** Whatever the tool does, an adapter launches its command once, waits
    once, with the timeout it was given, and then neither launches nor
    waits. *)
Lemma adapter_journal (p : provider) (model_name prompt : string)
      (t : spec_float) (w : list event) :
  exists r tail,
    adapt p model_name prompt t w
    = (r, w ++ Spawn (command cfg p model_name prompt) :: Communicate t :: tail)
    /\ awaited tail = [] /\ List.filter is_spawn tail = [].
Proof.
  destruct (os (spawned w) (command cfg p model_name prompt) t)
    as [rc o e| |] eqn:Hos.
  - pose proof (run_cli_exited _ _ _ _ _ _ Hos) as Hrun.
    destruct (Z.eq_dec rc 0) as [->|Hrc].
    + adapter_steps p; unfold command in Hrun; rewrite Hrun; cbn beta iota;
        cbn [Z.eqb negb].
      * unfold pure.
        destruct (_extract_last_message_from_codex_jsonl json_loads (decode o));
          do 2 eexists; (split; [reflexivity|split; reflexivity]).
      * destruct (json_loads (decode o));
          do 2 eexists; (split; [reflexivity|split; reflexivity]).
      * do 2 eexists; (split; [reflexivity|split; reflexivity]).
      * do 2 eexists; (split; [reflexivity|split; reflexivity]).
    + rewrite (adapter_failure _ _ _ _ _ _ _ _ _ Hrun Hrc).
      rewrite <- app_assoc. do 2 eexists. split; [reflexivity|].
      split; reflexivity.
  - pose proof (run_cli_timed_out _ _ _ Hos) as Hrun.
    rewrite (adapter_failure _ _ _ _ _ _ _ _ _ Hrun ltac:(discriminate)).
    rewrite <- app_assoc. do 2 eexists. split; [reflexivity|].
    split; reflexivity.
  - rewrite (adapter_gone _ _ _ _ _ Hos).
    do 2 eexists. split; [reflexivity|]. split; reflexivity.
Qed.


(** C5. When the tool exits with a code other than 0, the adapter of every
    provider returns [None] and raises nothing, having launched the command,
    waited for it and printed its diagnostic; [query_model] returns that
    [None], with the same journal.  The decoder [json_loads] and the bytes of
    the standard output are arbitrary here and absent from the result: the
    output is not parsed. *)
Theorem nonzero_exit_returns_none (p : provider) (model_name prompt : string)
        (t : spec_float) (w : list event) (rc : Z) (o e : list byte) :
  os (spawned w) (command cfg p model_name prompt) t = Exited rc o e ->
  rc <> 0 ->
  let journal :=
    w ++ [Spawn (command cfg p model_name prompt); Communicate t;
          Print (diagnostic p model_name (decode e))] in
  adapt p model_name prompt t w = (Return None, journal)
  /\ forall (messages : list message) (m : message) (timeout : option spec_float),
      last messages = Some m ->
      message_get m "content" EmptyString = prompt ->
      prompt <> EmptyString ->
      timeout_or_default cfg timeout = t ->
      query (prefix p +:+ String ":" model_name) messages timeout w
      = (Return None, journal).
Proof.
  intros Hos Hrc journal.
  assert (Ha : adapt p model_name prompt t w = (Return None, journal)).
  { rewrite (adapter_failure _ _ _ _ _ _ _ _ _ (run_cli_exited _ _ _ _ _ _ Hos) Hrc).
    subst journal. rewrite <- app_assoc. reflexivity. }
  split; [exact Ha|].
  intros messages m timeout Hl Hp Hne Ht.
  rewrite (query_model_known p _ model_name prompt messages m timeout Hl Hp Hne);
    [rewrite Ht; exact Ha|].
  apply split1_app, prefix_no_colon.
Qed.

(** When the wait for the process times out and the process is still there
    to be killed, [_run_cli] kills it and returns [(-1, "", "timeout")], and
    the adapter that called it, of whichever provider, returns [None]. *)
Theorem timeout_gives_sentinel_and_none (cmd : list string) (t : spec_float)
        (w : list event) :
  os (spawned w) cmd t = TimedOut ->
  run_cli cmd t w
  = (Return (-1, EmptyString, "timeout"), w ++ [Spawn cmd; Communicate t; Kill])
  /\ forall (p : provider) (model_name prompt : string),
      cmd = command cfg p model_name prompt ->
      adapt p model_name prompt t w
      = (Return None,
         w ++ [Spawn cmd; Communicate t; Kill;
               Print (diagnostic p model_name "timeout")]).
Proof.
  intros Hos. pose proof (run_cli_timed_out _ _ _ Hos) as Hrun.
  split; [exact Hrun|].
  intros p model_name prompt ->.
  rewrite (adapter_failure _ _ _ _ _ _ _ _ _ Hrun ltac:(discriminate)).
  rewrite <- app_assoc. reflexivity.
Qed.

(** C9, as amended.  For a call that [query_model] does not refuse, the one
    wait of the call is made with the caller's timeout when the caller gave
    one that is not zero, and with [DEFAULT_TIMEOUT] when the caller gave
    none or gave zero. *)
Theorem effective_timeout (p : provider) (model_name : string)
        (messages : list message) (m : message) (timeout : option spec_float)
        (w : list event) :
  last messages = Some m ->
  message_get m "content" EmptyString <> EmptyString ->
  awaited (query (prefix p +:+ String ":" model_name) messages timeout w).2
  = awaited w
    ++ [match timeout with
        | None => DEFAULT_TIMEOUT cfg
        | Some (S754_zero _) => DEFAULT_TIMEOUT cfg
        | Some t => t
        end].
Proof.
  intros Hl Hne.
  rewrite (query_model_known p _ model_name _ messages m timeout Hl eq_refl Hne);
    [|apply split1_app, prefix_no_colon].
  destruct (adapter_journal p model_name
              (message_get m "content" EmptyString)
              (timeout_or_default cfg timeout) w) as (r & tail & -> & Hw & _).
  cbn [snd]. unfold awaited in *. rewrite omap_app. cbn [omap]. simpl.
  fold (omap (fun e => match e with Communicate t => Some t | _ => None end) tail).
  rewrite Hw. f_equal. f_equal.
  unfold timeout_or_default. destruct timeout as [[| | |]|]; reflexivity.
Qed.


End Dispatch.

(** ** The dispatch on concrete calls *)

Lemma query_model_invalid_argument_witness :
  (exists msg, query_in tool_hangs "codex:m" [] None []
               = (Raise (ValueError msg), []))
  /\ (exists msg, query_in tool_hangs "codex:m" (ask EmptyString) None []
                  = (Raise (ValueError msg), []))
  /\ (exists msg, query_in tool_hangs "codex-m" (ask "hi") None []
                  = (Raise (ValueError msg), []))
  /\ (exists msg, query_in tool_hangs "foo:bar" (ask "hi") None []
                  = (Raise (ValueError msg), [])).
Proof.
  repeat split; apply query_model_invalid_argument.
  - left. reflexivity.
  - right; left. eexists. split; reflexivity.
  - right; right; left. reflexivity.
  - right; right; right. exists "foo". split; reflexivity.
Defined.

Lemma nonzero_exit_returns_none_witness :
  adapter Json.loads JsonOut.dumps ascii_ignore default_config
    (tool_exits 1 "{}" "boom") Codex "m" "hi" (S754_finite false 15 3) []
  = (Return None,
     [Spawn ["codex"; "exec"; "hi"; "-m"; "m"; "--json"];
      Communicate (S754_finite false 15 3); Print "Codex error (m): boom"])
  /\ query_in (tool_exits 1 "{}" "boom") "codex:m" (ask "hi") None []
     = (Return None,
        [Spawn ["codex"; "exec"; "hi"; "-m"; "m"; "--json"];
         Communicate (S754_finite false 15 3); Print "Codex error (m): boom"]).
Proof.
  destruct (nonzero_exit_returns_none Json.loads JsonOut.dumps ascii_ignore
              default_config (tool_exits 1 "{}" "boom") Codex "m" "hi"
              (S754_finite false 15 3) [] 1 (bytes_of "{}") (bytes_of "boom")
              eq_refl ltac:(discriminate)) as [Ha Hq].
  split; [exact Ha|].
  apply (Hq (ask "hi") _ None eq_refl eq_refl ltac:(discriminate) eq_refl).
Defined.

Lemma timeout_gives_sentinel_and_none_witness :
  _run_cli ascii_ignore tool_hangs ["gemini"; "-p"; "hi"; "-m"; "m"]
    (S754_finite false 15 3) []
  = (Return (-1, EmptyString, "timeout"),
     [Spawn ["gemini"; "-p"; "hi"; "-m"; "m"];
      Communicate (S754_finite false 15 3); Kill])
  /\ adapter Json.loads JsonOut.dumps ascii_ignore default_config tool_hangs
       Gemini "m" "hi" (S754_finite false 15 3) []
     = (Return None,
        [Spawn ["gemini"; "-p"; "hi"; "-m"; "m"];
         Communicate (S754_finite false 15 3); Kill;
         Print "Gemini error (m): timeout"]).
Proof.
  destruct (timeout_gives_sentinel_and_none Json.loads JsonOut.dumps
              ascii_ignore default_config tool_hangs
              ["gemini"; "-p"; "hi"; "-m"; "m"] (S754_finite false 15 3) []
              eq_refl) as [Hr Ha].
  split; [exact Hr|]. exact (Ha Gemini "m" "hi" eq_refl).
Defined.

(** C6.  The tool runs for 50 milliseconds and is awaited for 20: it does
    not complete within the timeout, and it has ended by the time
    [proc.kill()] is called.  The wait raises [asyncio.TimeoutError], the
    handler calls [proc.kill()], which finds no process and raises
    [ProcessLookupError]: [_run_cli] returns no tuple and kills nothing, the
    adapter of every provider returns no [None], and the exception leaves
    [query_model] and [query_models_parallel]. *)
Theorem late_exit_makes_kill_raise :
  _run_cli ascii_ignore tool_ends_late ["sleep"; "0.05"] short_timeout []
  = (Raise ProcessLookupError,
     [Spawn ["sleep"; "0.05"]; Communicate short_timeout])
  /\ (forall p : provider,
         adapter Json.loads JsonOut.dumps ascii_ignore default_config
           tool_ends_late p "m" "hi" short_timeout []
         = (Raise ProcessLookupError,
            [Spawn (command default_config p "m" "hi");
             Communicate short_timeout]))
  /\ query_in tool_ends_late "gemini:m" (ask "hi") (Some short_timeout) []
     = (Raise ProcessLookupError,
        [Spawn ["gemini"; "-p"; "hi"; "-m"; "m"]; Communicate short_timeout])
  /\ (query_all_in tool_ends_late ["gemini:m"; "grok:m"] (ask "hi") []).1
     = Raise ProcessLookupError.
Proof.
  split; [reflexivity|]. split; [intros []; reflexivity|].
  split; vm_compute; reflexivity.
Qed.

(** C9, as stated, fails: the caller gives the timeout 0.0, and the wait is
    made with the default of 120 seconds, not with 0.0. *)
Lemma zero_timeout_replaced_by_default :
  awaited (query_in (tool_exits 0 "ok" EmptyString) "gemini:m" (ask "hi")
             (Some (S754_zero false)) []).2
  = [DEFAULT_TIMEOUT default_config]
  /\ awaited (query_in (tool_exits 0 "ok" EmptyString) "gemini:m" (ask "hi")
                (Some (S754_zero false)) []).2
     <> [stated_timeout default_config (Some (S754_zero false))].
Proof. split; [reflexivity|]. vm_compute. discriminate. Qed.

Lemma effective_timeout_witness :
  awaited (query_in (tool_exits 0 "ok" EmptyString) "gemini:m" (ask "hi")
             (Some (S754_finite false 5 1)) []).2
  = [S754_finite false 5 1].
Proof.
  exact (effective_timeout Json.loads JsonOut.dumps ascii_ignore default_config
           (tool_exits 0 "ok" EmptyString) Gemini "m" (ask "hi") _
           (Some (S754_finite false 5 1)) [] eq_refl ltac:(discriminate)).
Defined.



(** ** The parsers *)

Section ParserFacts.

Variable json_loads : string -> option pyval.
Variable json_dumps : pyval -> string.

Local Abbreviation extract_codex :=
  (_extract_last_message_from_codex_jsonl json_loads).
Local Abbreviation candidate := (line_candidate json_loads).

Lemma or_pick_truthy (a b : pyval) : Py.or a b = pick_truthy a b.
Proof.
  unfold Py.or, pick_truthy, nullify.
  destruct (Py.truthy a) eqn:E; [|destruct b; reflexivity].
  destruct a; try reflexivity; discriminate.
Qed.

Lemma pick_truthy_cases (a b : pyval) :
  pick_truthy a b = if Py.truthy a then a else b.
Proof.
  unfold pick_truthy, nullify.
  destruct (Py.truthy a) eqn:E; [|destruct b; reflexivity].
  destruct a; try reflexivity; discriminate.
Qed.

Lemma nullify_null_or_truthy (v : pyval) :
  null_or_truthy v = true -> nullify v = v.
Proof.
  unfold nullify, null_or_truthy. destruct v; try reflexivity; intros ->;
    reflexivity.
Qed.

Lemma pick_agree (a b : pyval) :
  null_or_truthy a = true -> pick_truthy a b = pick_non_null a b.
Proof.
  unfold pick_truthy, pick_non_null, nullify, null_or_truthy.
  destruct a; try reflexivity; intros ->; reflexivity.
Qed.

(** One turn of the loop, on a line that is no JSON or a JSON object. *)
Lemma codex_line_candidate (lc : option string) (line : string) :
  (forall v, json_loads line = Some v -> Py.is_dict v = true) ->
  codex_line json_loads lc line
  = Return (match candidate line with Some c => Some c | None => lc end).
Proof.
  intros Hobj. unfold codex_line, line_candidate.
  destruct (json_loads line) as [v|]; [|reflexivity].
  specialize (Hobj v eq_refl).
  destruct v as [| | | | |o]; try discriminate.
  destruct (codex_payload o); try reflexivity.
  destruct (Py.get _ "content"); try reflexivity.
  destruct (role_accepted _); reflexivity.
Qed.

(** The loop keeps the content of the last line that offers one. *)
Lemma codex_lines_last (lines : list string) (lc : option string) :
  object_lines json_loads lines ->
  codex_lines json_loads lines lc
  = Return (match last (omap candidate lines) with
            | Some c => Some c
            | None => lc
            end).
Proof.
  revert lc. induction lines as [|l ls IH]; intros lc Hobj; [reflexivity|].
  cbn [codex_lines].
  rewrite codex_line_candidate by (intros v; apply Hobj; left; reflexivity).
  rewrite IH by (intros x v Hx; apply Hobj; right; exact Hx).
  cbn [omap list_omap]. destruct (candidate l) as [c|]; [|reflexivity].
  rewrite last_cons. destruct (last (omap candidate ls)); reflexivity.
Qed.

(** A line that decodes to a value that is no mapping stops the loop with
    [AttributeError], whatever came before it. *)
Lemma codex_lines_raise (before after : list string) (line : string)
      (v : pyval) (lc : option string) :
  object_lines json_loads before ->
  json_loads line = Some v ->
  Py.is_dict v = false ->
  codex_lines json_loads (before ++ line :: after) lc
  = Raise (no_attribute v "get").
Proof.
  revert lc. induction before as [|l ls IH]; intros lc Hobj Hv Hd.
  - cbn [app codex_lines]. unfold codex_line. rewrite Hv.
    destruct v; try reflexivity; discriminate.
  - cbn [app codex_lines].
    rewrite codex_line_candidate by (intros x; apply Hobj; left; reflexivity).
    apply IH; [|assumption|assumption].
    intros x y Hx; apply Hobj; right; exact Hx.
Qed.

(** So does the function: a JSON line that is no object makes it raise. *)
Lemma non_object_line_raises (output line : string) (before after : list string)
      (v : pyval) :
  nonblank_lines output = before ++ line :: after ->
  object_lines json_loads before ->
  json_loads line = Some v ->
  Py.is_dict v = false ->
  extract_codex output = Raise (no_attribute v "get").
Proof.
  intros Hl Hobj Hv Hd. unfold _extract_last_message_from_codex_jsonl.
  rewrite Hl, (codex_lines_raise _ _ _ v _ Hobj Hv Hd). reflexivity.
Qed.

(** When the last line that offers a content offers the empty string, and
    every JSON line is an object, the result is the trimmed output. *)
Lemma empty_candidate_falls_back (output : string) :
  object_lines json_loads (nonblank_lines output) ->
  last (omap candidate (nonblank_lines output)) = Some EmptyString ->
  extract_codex output = Return (PyStr.strip output).
Proof.
  intros Hobj Hlast. unfold _extract_last_message_from_codex_jsonl.
  rewrite codex_lines_last by assumption. rewrite Hlast. reflexivity.
Qed.

(** C3, as amended.  When every line of the output that is JSON is a JSON
    object, the result is the content of the last line whose payload is a
    mapping with a string [content] and a [role] that is absent, null or
    ["assistant"], provided that content is not empty; when it is empty the
    result is the trimmed output.  On the two lines of the example, [user]
    then [assistant], with any decoder that reads them as JSON, the result
    is [Y]. *)
Theorem last_assistant_message_wins :
  (forall (output c : string),
      object_lines json_loads (nonblank_lines output) ->
      last (omap candidate (nonblank_lines output)) = Some c ->
      extract_codex output
      = Return (if PyStr.nonempty c then c else PyStr.strip output))
  /\ (json_loads user_line = Json.loads user_line ->
      json_loads assistant_line = Json.loads assistant_line ->
      extract_codex (user_line +:+ PyStr.LF +:+ assistant_line) = Return "Y").
Proof.
  assert (Hgen : forall output c,
             object_lines json_loads (nonblank_lines output) ->
             last (omap candidate (nonblank_lines output)) = Some c ->
             extract_codex output
             = Return (if PyStr.nonempty c then c else PyStr.strip output)).
  { intros output c Hobj Hlast.
    unfold _extract_last_message_from_codex_jsonl.
    rewrite codex_lines_last by assumption. rewrite Hlast. reflexivity. }
  split; [exact Hgen|].
  intros Hu Ha.
  assert (Hl : nonblank_lines (user_line +:+ PyStr.LF +:+ assistant_line)
               = [user_line; assistant_line]) by (vm_compute; reflexivity).
  change (Return "Y") with
    (Return (if PyStr.nonempty "Y" then "Y"
             else PyStr.strip (user_line +:+ PyStr.LF +:+ assistant_line))).
  apply Hgen; rewrite ?Hl.
  - intros line v [<-|[<-|[]]] Hv.
    + rewrite Hu in Hv. vm_compute in Hv. inversion Hv; reflexivity.
    + rewrite Ha in Hv. vm_compute in Hv. inversion Hv; reflexivity.
  - cbn [omap list_omap]. unfold line_candidate. rewrite Hu, Ha.
    vm_compute. reflexivity.
Qed.

(** C8, as amended.  The payload of a line is the first truthy value among
    those of [message], [data] and [event], a value that is false, zero or
    empty being passed over as null is; with no truthy value among the first
    two it is the value of [event].  A truthy [message] is always taken, and
    the payload is the first non-null value whenever [message] and [data]
    are each null or truthy. *)
Theorem payload_first_truthy (obj : list (string * pyval)) :
  codex_payload obj
  = first_non_null [nullify (Py.get obj "message");
                    nullify (Py.get obj "data"); Py.get obj "event"]
  /\ (Py.truthy (Py.get obj "message") = true ->
      codex_payload obj = Py.get obj "message")
  /\ (null_or_truthy (Py.get obj "message") = true ->
      null_or_truthy (Py.get obj "data") = true ->
      codex_payload obj = stated_payload obj).
Proof.
  assert (H1 : codex_payload obj
               = first_non_null [nullify (Py.get obj "message");
                                 nullify (Py.get obj "data");
                                 Py.get obj "event"]).
  { unfold codex_payload, Py.or, nullify.
    generalize (Py.get obj "message") (Py.get obj "data") (Py.get obj "event").
    intros m d e.
    destruct (Py.truthy m) eqn:Em.
    - rewrite Em. destruct m; try reflexivity; discriminate.
    - destruct (Py.truthy d) eqn:Ed; cbn [first_non_null];
        [|destruct e; reflexivity].
      destruct d; try reflexivity; discriminate. }
  split; [exact H1|]. split.
  - intros Hm. unfold codex_payload, Py.or. rewrite Hm, Hm. reflexivity.
  - intros Hm Hd. rewrite H1.
    rewrite (nullify_null_or_truthy _ Hm), (nullify_null_or_truthy _ Hd).
    reflexivity.
Qed.

(** The code of [_extract_claude_text] is the procedure of the specification
    with "or" read as the first truthy value. *)
Lemma extract_claude_text_stated (payload : pyval) :
  _extract_claude_text json_dumps payload
  = stated_claude_text pick_truthy json_dumps payload.
Proof.
  destruct payload as [| | | | |p]; try reflexivity.
  unfold _extract_claude_text, stated_claude_text, claude_completion,
    claude_output, claude_message.
  rewrite <- !or_pick_truthy.
  assert (Ha : match Py.or (Py.or (Py.get p "completion") (Py.get p "result"))
                       (PDict []) with
               | PDict c =>
                   match Py.or (Py.get c "text") (Py.get c "content") with
                   | PStr text => Some text
                   | _ => None
                   end
               | _ => None
               end
               = match Py.or (Py.get p "completion") (Py.get p "result") with
                 | PDict c =>
                     match pick_truthy (Py.get c "text") (Py.get c "content") with
                     | PStr s => Some s
                     | _ => None
                     end
                 | _ => None
                 end).
  { generalize (Py.or (Py.get p "completion") (Py.get p "result")).
    intros v. unfold Py.or at 1.
    destruct (Py.truthy v) eqn:E.
    - destruct v; try reflexivity. rewrite or_pick_truthy. reflexivity.
    - destruct v as [| | | | |[|kv c]]; try reflexivity. discriminate. }
  rewrite Ha.
  destruct (match Py.or (Py.get p "completion") (Py.get p "result") with
            | PDict c => _ | _ => None end); [reflexivity|].
  destruct (Py.or (Py.get p "output") (Py.get p "text")); try reflexivity;
    destruct (Py.get p "message"); try reflexivity;
    destruct (Py.get _ "content"); reflexivity.
Qed.

End ParserFacts.

Section ClaudeFacts.

Variable json_loads : string -> option pyval.
Variable json_dumps : pyval -> string.
Variable utf8_ignore : list byte -> string.
Variable cfg : config.
Variable os : nat -> list string -> spec_float -> completion.

Local Abbreviation query_claude :=
  (_query_claude json_loads json_dumps utf8_ignore cfg os).

(** C4, as amended.  When the tool exits with 0, the content is the trimmed
    output if the output is no JSON, and otherwise is found in the decoded
    value by the four steps of the specification, in their order, each
    choice between two fields being [pick_truthy]: the value of the first
    field when it is truthy, and otherwise the value of the second field as
    it is, be it empty or absent.  With any decoder that reads them as JSON,
    the two example outputs give [hello] and [hi]. *)
Theorem claude_content (model_name prompt : string) (t : spec_float)
        (w : list event) (out_b err_b : list byte) :
  os (spawned w) (command cfg Claude model_name prompt) t
  = Exited 0 out_b err_b ->
  let out := decode_or_empty utf8_ignore out_b in
  let returns (text : string) :=
    query_claude model_name prompt t w
    = (Return (Some {| content := text |}),
       w ++ [Spawn (command cfg Claude model_name prompt); Communicate t]) in
  (json_loads out = None -> returns (PyStr.strip out))
  /\ (forall payload, json_loads out = Some payload ->
                      returns (stated_claude_text pick_truthy json_dumps payload))
  /\ (out = hello_output -> json_loads out = Json.loads out -> returns "hello")
  /\ (out = hi_output -> json_loads out = Json.loads out -> returns "hi")
  /\ (forall a b, pick_truthy a b = if Py.truthy a then a else b).
Proof.
  intros Hos out returns.
  assert (Hrun := run_cli_exited utf8_ignore os _ _ _ _ _ _ Hos).
  assert (Hnone : json_loads out = None -> returns (PyStr.strip out)).
  { intros Hl. subst returns. cbn beta. unfold _query_claude, bind.
    unfold command in Hrun. rewrite Hrun. cbn beta iota. cbn [Z.eqb negb].
    fold out. rewrite Hl. reflexivity. }
  assert (Hsome : forall payload, json_loads out = Some payload ->
            returns (stated_claude_text pick_truthy json_dumps payload)).
  { intros payload Hl. subst returns. cbn beta. unfold _query_claude, bind.
    unfold command in Hrun. rewrite Hrun. cbn beta iota. cbn [Z.eqb negb].
    fold out. rewrite Hl. rewrite extract_claude_text_stated. reflexivity. }
  split; [exact Hnone|]. split; [exact Hsome|]. split; [|split].
  - intros Ho Hl. rewrite Ho in Hl at 2.
    change "hello" with
      (stated_claude_text pick_truthy json_dumps
         (PDict [("output", PStr "hello")])).
    apply Hsome. rewrite Hl. vm_compute. reflexivity.
  - intros Ho Hl. rewrite Ho in Hl at 2.
    change "hi" with
      (stated_claude_text pick_truthy json_dumps
         (PDict [("completion", PDict [("text", PStr "hi")])])).
    apply Hsome. rewrite Hl. vm_compute. reflexivity.
  - intros a b. apply pick_truthy_cases.
Qed.

End ClaudeFacts.


(** ** The parsers on concrete outputs *)

(** C3, as stated, fails: the one line of the output offers the empty
    string, and the result is the line itself. *)
Lemma empty_content_not_returned :
  last (omap (stated_candidate Json.loads) (nonblank_lines empty_content_line))
  = Some EmptyString
  /\ _extract_last_message_from_codex_jsonl Json.loads empty_content_line
     = Return empty_content_line
  /\ _extract_last_message_from_codex_jsonl Json.loads empty_content_line
     <> Return EmptyString.
Proof.
  split; [vm_compute; reflexivity|].
  split; [vm_compute; reflexivity|vm_compute; discriminate].
Qed.

Lemma last_assistant_message_wins_witness :
  _extract_last_message_from_codex_jsonl Json.loads
    (user_line +:+ PyStr.LF +:+ assistant_line) = Return "Y".
Proof.
  exact (proj2 (last_assistant_message_wins Json.loads) eq_refl eq_refl).
Defined.

(** C8, as stated, fails: [message] holds an empty mapping, which is not
    null, and the payload examined is the value of [data]; the result is the
    content found there. *)
Lemma empty_message_passed_over :
  Json.loads empty_message_line
  = Some (PDict [("message", PDict []); ("data", PDict [("content", PStr "Y")])])
  /\ stated_payload
       [("message", PDict []); ("data", PDict [("content", PStr "Y")])]
     = PDict []
  /\ codex_payload
       [("message", PDict []); ("data", PDict [("content", PStr "Y")])]
     = PDict [("content", PStr "Y")]
  /\ _extract_last_message_from_codex_jsonl Json.loads empty_message_line
     = Return "Y".
Proof. repeat split; vm_compute; reflexivity. Qed.

Lemma payload_first_truthy_witness :
  codex_payload [("message", PNone); ("event", PDict [("content", PStr "e")])]
  = stated_payload
      [("message", PNone); ("event", PDict [("content", PStr "e")])].
Proof.
  exact (proj2 (proj2 (payload_first_truthy
                         [("message", PNone);
                          ("event", PDict [("content", PStr "e")])]))
           eq_refl eq_refl).
Defined.

(** C4, as stated, fails: [output] holds a string, the empty one, and the
    content is that of [message]. *)
Lemma empty_output_passed_over :
  Json.loads empty_output_text
  = Some (PDict [("output", PStr EmptyString);
                 ("message", PDict [("content", PStr "m")])])
  /\ stated_claude_text pick_non_null JsonOut.dumps
       (PDict [("output", PStr EmptyString);
               ("message", PDict [("content", PStr "m")])])
     = EmptyString
  /\ _extract_claude_text JsonOut.dumps
       (PDict [("output", PStr EmptyString);
               ("message", PDict [("content", PStr "m")])])
     = "m"
  /\ (query_in (tool_exits 0 empty_output_text EmptyString) "claude:m"
        (ask "hi") None []).1
     = Return (Some {| content := "m" |}).
Proof. repeat split; vm_compute; reflexivity. Qed.

Lemma claude_content_witness :
  _query_claude Json.loads JsonOut.dumps ascii_ignore default_config
    (tool_exits 0 hello_output EmptyString) "m" "hi" (S754_finite false 15 3) []
  = (Return (Some {| content := "hello" |}),
     [Spawn ["claude"; "--print"; "--output-format"; "json"; "--model"; "m";
             "hi"];
      Communicate (S754_finite false 15 3)]).
Proof.
  exact (proj1 (proj2 (proj2
           (claude_content Json.loads JsonOut.dumps ascii_ignore default_config
              (tool_exits 0 hello_output EmptyString) "m" "hi"
              (S754_finite false 15 3) [] _ _ eq_refl)))
           eq_refl eq_refl).
Defined.

(** The second field of a choice is taken as it is: an empty string under
    [text] when [output] is absent, or under [content] when [text] is
    absent, is the content, whatever the later steps would find. *)
Lemma empty_second_field_returned :
  _extract_claude_text JsonOut.dumps
    (PDict [("text", PStr EmptyString);
            ("message", PDict [("content", PStr "m")])])
  = EmptyString
  /\ _extract_claude_text JsonOut.dumps
       (PDict [("completion", PDict [("content", PStr EmptyString)]);
               ("output", PStr "o")])
     = EmptyString.
Proof. split; vm_compute; reflexivity. Qed.

(** C10.  The first line offers the empty string and the second line is the
    JSON number 42: the function raises [AttributeError] where the docstring
    promises the raw output. *)
Theorem empty_candidate_then_number_raises :
  last (omap (line_candidate Json.loads) (nonblank_lines empty_then_number))
  = Some EmptyString
  /\ _extract_last_message_from_codex_jsonl Json.loads empty_then_number
     = Raise (AttributeError "'int' object has no attribute 'get'")
  /\ (query_in (tool_exits 0 empty_then_number EmptyString) "codex:m"
        (ask "hi") None []).1
     = Raise (AttributeError "'int' object has no attribute 'get'").
Proof. repeat split; vm_compute; reflexivity. Qed.

(** ** The fan-out *)

Lemma returned_returns {A : Type} (rs : list A) :
  returned (List.map Return rs) = rs.
Proof.
  unfold returned. induction rs as [|a r IH]; simpl; [reflexivity|].
  f_equal. exact IH.
Qed.

Lemma raised_returns {A : Type} (rs : list A) :
  raised (List.map Return rs) = [].
Proof.
  unfold raised. induction rs as [|a r IH]; simpl; [reflexivity|exact IH].
Qed.

Lemma raised_in {A : Type} (rs : list (outcome A)) (e : exn) :
  In e (raised rs) <-> In (Raise e) rs.
Proof.
  unfold raised. induction rs as [|r rs IH]; cbn [omap list_omap]; [tauto|].
  destruct r as [a|e']; cbn [In]; rewrite IH.
  - split; [tauto|]. intros [H|H]; [discriminate|exact H].
  - split; (intros [H|H]; [left; congruence|right; exact H]).
Qed.

Lemma collect_returns {A : Type} (seen_first : list exn -> nat) (rs : list A) :
  collect seen_first (List.map Return rs) = Return rs.
Proof.
  unfold collect. rewrite raised_returns, returned_returns. reflexivity.
Qed.

(** When a coroutine raised, [gather] raises what one of them raised. *)
Lemma collect_raises {A : Type} (seen_first : list exn -> nat)
      (rs : list (outcome A)) (r : outcome A) :
  In r rs -> is_raise r = true ->
  exists e, collect seen_first rs = Raise e /\ In (Raise e) rs.
Proof.
  intros Hin Hr. destruct r as [a|e0]; [discriminate|].
  apply raised_in in Hin. unfold collect.
  destruct (raised rs) as [|e es] eqn:Hraised; [destruct Hin|].
  eexists. split; [reflexivity|].
  apply raised_in. rewrite Hraised.
  destruct (List.nth_in_or_default (seen_first (e :: es)) (e :: es) e)
    as [H | ->]; [exact H|left; reflexivity].
Qed.

(** When every coroutine returned, [gather] raises nothing. *)
Lemma collect_all_returned {A : Type} (seen_first : list exn -> nat)
      (rs : list (outcome A)) (l : list A) :
  collect seen_first rs = Return l -> rs = List.map Return l.
Proof.
  unfold collect.
  destruct (raised rs) as [|e es] eqn:Hraised; [|discriminate].
  intros H. inversion H; subst. clear H.
  unfold raised, returned in *.
  induction rs as [|r rs IH]; [reflexivity|].
  cbn [omap list_omap] in *. destruct r as [a|e]; [|discriminate].
  cbn [List.map]. f_equal. apply IH. exact Hraised.
Qed.

Lemma run_all_length {A : Type} (tasks : list (io A)) (w : list event) :
  length (run_all tasks w).1 = length tasks.
Proof.
  revert w. induction tasks as [|t ts IH]; intros w; simpl; [reflexivity|].
  destruct (t w) as [r w1]. specialize (IH w1).
  destruct (run_all ts w1) as [rs w2]. simpl in *. rewrite IH. reflexivity.
Qed.

Lemma dict_of_pairs_snoc (pairs : list (string * option reply))
      (k : string) (v : option reply) :
  dict_of_pairs (pairs ++ [(k, v)]) = <[k := v]> (dict_of_pairs pairs).
Proof. unfold dict_of_pairs. rewrite foldl_snoc. reflexivity. Qed.

(** The value under a key is the one of the last pair with that key. *)
Lemma dict_of_pairs_last (pairs : list (string * option reply)) (i : nat)
      (k : string) (v : option reply) :
  pairs !! i = Some (k, v) ->
  (forall j v', (i < j)%nat -> pairs !! j <> Some (k, v')) ->
  dict_of_pairs pairs !! k = Some v.
Proof.
  revert i. induction pairs as [|[k' v'] l IH] using rev_ind; intros i Hi Hlast.
  - rewrite lookup_nil in Hi. discriminate.
  - rewrite dict_of_pairs_snoc.
    destruct (decide (i < length l)%nat) as [Hlt|Hge].
    + rewrite lookup_app_l in Hi by exact Hlt.
      assert (k' <> k).
      { intros ->. apply (Hlast (length l) v' Hlt).
        rewrite lookup_app_r by lia. rewrite Nat.sub_diag. reflexivity. }
      rewrite lookup_insert_ne by assumption.
      apply (IH i Hi). intros j v'' Hj Hl.
      apply (Hlast j v'' Hj). rewrite lookup_app_l; [exact Hl|].
      apply lookup_lt_Some in Hl. exact Hl.
    + rewrite lookup_app_r in Hi by lia.
      destruct (i - length l)%nat eqn:E; [|destruct n; discriminate].
      inversion Hi; subst. apply lookup_insert_eq.
Qed.

Lemma dict_of_pairs_dom (pairs : list (string * option reply)) :
  dom (dict_of_pairs pairs) = list_to_set pairs.*1.
Proof.
  induction pairs as [|[k v] l IH] using rev_ind.
  - unfold dict_of_pairs. simpl. apply dom_empty_L.
  - rewrite dict_of_pairs_snoc, dom_insert_L, IH, fmap_app, list_to_set_app_L.
    simpl. rewrite union_empty_r_L. apply (comm_L union).
Qed.

Section FanOut.

Variable json_loads : string -> option pyval.
Variable json_dumps : pyval -> string.
Variable utf8_ignore : list byte -> string.
Variable cfg : config.
Variable os : nat -> list string -> spec_float -> completion.
Variable seen_first : list exn -> nat.

Local Abbreviation query :=
  (query_model json_loads json_dumps utf8_ignore cfg os).
Local Abbreviation query_all :=
  (query_models_parallel json_loads json_dumps utf8_ignore cfg os seen_first).

(** C2, as amended.  [query_models_parallel] makes one call of [query_model]
    for each entry of the list, with no timeout of the caller's.  When every
    call returns, it returns a mapping whose keys are the identifiers of the
    list and which gives, for an identifier, the result of the call made for
    its last occurrence in the list.  When a call raises, it returns no
    mapping and raises what one of the calls raised. *)
Theorem parallel_results (models : list string) (messages : list message)
        (w w' : list event) (outs : list (outcome (option reply))) :
  run_all (List.map (fun m => query m messages None) models) w = (outs, w') ->
  length outs = length models
  /\ (forall rs, outs = List.map Return rs ->
        exists d : gmap string (option reply),
          query_all models messages w = (Return d, w')
          /\ dom d = list_to_set models
          /\ forall (i : nat) (m : string),
              models !! i = Some m ->
              (forall j, (i < j)%nat -> models !! j <> Some m) ->
              d !! m = rs !! i)
  /\ (forall r, In r outs -> is_raise r = true ->
        exists e, (query_all models messages w).1 = Raise e
                  /\ In (Raise e) outs).
Proof.
  intros Hrun.
  assert (Hlen : length outs = length models).
  { pose proof (run_all_length
                  (List.map (fun m => query m messages None) models) w) as H.
    rewrite Hrun in H. simpl in H. rewrite H. apply List.length_map. }
  split; [exact Hlen|]. split.
  - intros rs ->. rewrite List.length_map in Hlen.
    exists (dict_of_pairs (zip models rs)). split; [|split].
    + unfold query_models_parallel, bind, gather, ret. rewrite Hrun.
      rewrite collect_returns. reflexivity.
    + rewrite dict_of_pairs_dom, fst_zip by lia. reflexivity.
    + intros i m Hi Hlast.
      destruct (rs !! i) as [r|] eqn:Hr.
      2:{ apply lookup_ge_None in Hr. apply lookup_lt_Some in Hi. lia. }
      apply (dict_of_pairs_last _ i).
      * apply lookup_zip_Some. split; assumption.
      * intros j v' Hj Hz. apply lookup_zip_Some in Hz as [Hm _].
        exact (Hlast j Hj Hm).
  - intros r Hin Hr.
    destruct (collect_raises seen_first outs r Hin Hr) as (e & He & Hi).
    exists e. split; [|exact Hi].
    unfold query_models_parallel, bind, gather. rewrite Hrun, He. reflexivity.
Qed.

End FanOut.

(** C2, as stated, fails: with an identifier of an unknown provider in the
    list, the call raises and returns no mapping. *)
Lemma unknown_provider_aborts_batch :
  (query_all_in (tool_exits 0 "ok" EmptyString) ["gemini:m"; "foo:bar"]
     (ask "hi") []).1
  = Raise (ValueError "Unknown provider in model identifier: foo")
  /\ ~ (exists d, (query_all_in (tool_exits 0 "ok" EmptyString)
                     ["gemini:m"; "foo:bar"] (ask "hi") []).1 = Return d).
Proof.
  assert (H : (query_all_in (tool_exits 0 "ok" EmptyString)
                 ["gemini:m"; "foo:bar"] (ask "hi") []).1
              = Raise (ValueError "Unknown provider in model identifier: foo"))
    by (vm_compute; reflexivity).
  split; [exact H|]. rewrite H. intros [d Hd]. discriminate.
Qed.

Lemma parallel_results_witness :
  exists d : gmap string (option reply),
    (query_all_in (tool_prints ["one"; "two"; "three"])
       ["grok:a"; "gemini:b"; "grok:a"] (ask "hi") []).1 = Return d
    /\ d !! "grok:a" = Some (Some {| content := "three" |})
    /\ d !! "gemini:b" = Some (Some {| content := "two" |})
    /\ dom d = {["grok:a"; "gemini:b"]}.
Proof.
  destruct (parallel_results Json.loads JsonOut.dumps ascii_ignore
              default_config (tool_prints ["one"; "two"; "three"]) (fun _ => O)
              ["grok:a"; "gemini:b"; "grok:a"] (ask "hi") [] _ _ eq_refl)
    as (_ & Hret & _).
  destruct (Hret [Some {| content := "one" |}; Some {| content := "two" |};
                  Some {| content := "three" |}] eq_refl)
    as (d & Hq & Hdom & Hlook).
  exists d. split; [unfold query_all_in; rewrite Hq; reflexivity|].
  split; [|split].
  - apply (Hlook 2%nat "grok:a" eq_refl). intros j Hj Hm.
    apply lookup_lt_Some in Hm. simpl in Hm. lia.
  - apply (Hlook 1%nat "gemini:b" eq_refl). intros j Hj Hm.
    destruct j as [|[|[|j]]]; try lia; simpl in Hm; discriminate.
  - rewrite Hdom. simpl. set_solver.
Defined.

(** * Further properties of the module *)

(** ** Trimming *)

Lemma lstrip_fixed (l : list ascii) :
  match l with [] => True | c :: _ => PyStr.isspace c = false end ->
  PyStr.lstrip_chars l = l.
Proof. destruct l as [|c r]; simpl; [reflexivity|]. intros ->. reflexivity. Qed.

Lemma lstrip_head (l : list ascii) :
  match PyStr.lstrip_chars l with
  | [] => True
  | c :: _ => PyStr.isspace c = false
  end.
Proof.
  induction l as [|c r IH]; simpl; [exact I|].
  destruct (PyStr.isspace c) eqn:E; [exact IH|exact E].
Qed.

(** What is left after the leading blanks is the end of the text. *)
Lemma lstrip_suffix (l : list ascii) :
  exists sp, l = sp ++ PyStr.lstrip_chars l.
Proof.
  induction l as [|c r [sp IH]]; simpl; [exists []; reflexivity|].
  destruct (PyStr.isspace c).
  - exists (c :: sp). simpl. f_equal. exact IH.
  - exists []. reflexivity.
Qed.

Lemma strip_chars_head (l : list ascii) :
  match PyStr.strip_chars l with
  | [] => True
  | c :: _ => PyStr.isspace c = false
  end.
Proof.
  unfold PyStr.strip_chars.
  pose proof (lstrip_head l) as Ha.
  destruct (lstrip_suffix (rev (PyStr.lstrip_chars l))) as [sp Hsp].
  set (a := PyStr.lstrip_chars l) in *.
  set (b := PyStr.lstrip_chars (rev a)) in *.
  assert (Hab : a = rev b ++ rev sp).
  { rewrite <- (rev_involutive a), Hsp, rev_app_distr. reflexivity. }
  destruct (rev b) as [|c r] eqn:Hb; [exact I|].
  rewrite Hab in Ha. simpl in Ha. exact Ha.
Qed.

Lemma strip_chars_idempotent (l : list ascii) :
  PyStr.strip_chars (PyStr.strip_chars l) = PyStr.strip_chars l.
Proof.
  pose proof (strip_chars_head l) as Hh.
  unfold PyStr.strip_chars at 1.
  rewrite (lstrip_fixed _ Hh).
  unfold PyStr.strip_chars. rewrite rev_involutive.
  rewrite (lstrip_fixed _ (lstrip_head _)). reflexivity.
Qed.

Lemma strip_idempotent (s : string) :
  PyStr.strip (PyStr.strip s) = PyStr.strip s.
Proof.
  unfold PyStr.strip. rewrite list_ascii_of_string_of_list_ascii.
  rewrite strip_chars_idempotent. reflexivity.
Qed.

(** ** More on the JSON-lines parser *)

Section CodexMore.

Variable json_loads : string -> option pyval.

Local Abbreviation extract_codex :=
  (_extract_last_message_from_codex_jsonl json_loads).
Local Abbreviation candidate := (line_candidate json_loads).
Local Abbreviation scan := (codex_lines json_loads).

Lemma candidate_not_object (line : string) :
  non_object_line json_loads line = true -> candidate line = None.
Proof.
  unfold non_object_line, line_candidate.
  destruct (json_loads line) as [[| | | | |o]|]; try reflexivity; discriminate.
Qed.

(** One turn of the loop raises exactly on a line that is JSON and no
    object. *)
Lemma codex_line_cases (lc : option string) (line : string) :
  (non_object_line json_loads line = false
   /\ codex_line json_loads lc line
      = Return (match candidate line with Some c => Some c | None => lc end))
  \/ (exists v, json_loads line = Some v /\ Py.is_dict v = false
                /\ non_object_line json_loads line = true
                /\ codex_line json_loads lc line = Raise (no_attribute v "get")).
Proof.
  unfold non_object_line.
  destruct (json_loads line) as [v|] eqn:Hv.
  - destruct (Py.is_dict v) eqn:Hd.
    + left. split; [reflexivity|]. apply codex_line_candidate.
      intros v' Hv'. congruence.
    + right. exists v. repeat split; try reflexivity; try exact Hd.
      unfold codex_line. rewrite Hv. destruct v; try reflexivity; discriminate.
  - left. split; [reflexivity|]. apply codex_line_candidate. congruence.
Qed.

(** The loop returns when no line is a non-object, and otherwise raises at
    the first line that is one. *)
Lemma scan_outcome (lines : list string) (lc : option string) :
  (List.existsb (non_object_line json_loads) lines = false
   /\ scan lines lc
      = Return (match last (omap candidate lines) with
                | Some c => Some c
                | None => lc
                end))
  \/ (exists before line after v,
         lines = before ++ line :: after
         /\ List.existsb (non_object_line json_loads) before = false
         /\ json_loads line = Some v /\ Py.is_dict v = false
         /\ scan lines lc = Raise (no_attribute v "get")).
Proof.
  revert lc. induction lines as [|l ls IH]; intros lc.
  - left. split; reflexivity.
  - cbn [List.existsb codex_lines].
    destruct (codex_line_cases lc l) as [[Hn ->]|(v & Hv & Hd & Hn & ->)].
    + rewrite Hn. cbn [orb].
      destruct (IH (match candidate l with Some c => Some c | None => lc end))
        as [[He ->]|(before & line & after & v & -> & Hb & Hv & Hd & ->)].
      * left. split; [exact He|]. cbn [omap list_omap].
        destruct (candidate l) as [c|]; [|reflexivity].
        rewrite last_cons. destruct (last (omap candidate ls)); reflexivity.
      * right. exists (l :: before), line, after, v.
        cbn [app List.existsb]. rewrite Hn. repeat split; assumption.
    + right. exists [], l, ls, v. repeat split; assumption.
Qed.

(** X5. A non-blank line that decodes to a JSON value that is no object
    (null, a boolean, an integer, a string or a list) makes
    [_extract_last_message_from_codex_jsonl] raise the [AttributeError] of
    [obj.get] for that value, when every non-blank line before it is
    rejected by the decoder with [JSONDecodeError] or decodes to an object:
    whatever those lines offered as a content is lost, and the lines after
    it are not read. *)
Theorem first_non_object_line_raises (output line : string)
        (before after : list string) (v : pyval) :
  nonblank_lines output = before ++ line :: after ->
  List.existsb (non_object_line json_loads) before = false ->
  json_loads line = Some v ->
  Py.is_dict v = false ->
  extract_codex output = Raise (no_attribute v "get").
Proof.
  intros Hl Hb Hv Hd.
  assert (Hfirst : forall (xs ys : list string) x y xs' ys',
             xs ++ x :: xs' = ys ++ y :: ys' ->
             List.existsb (non_object_line json_loads) xs = false ->
             List.existsb (non_object_line json_loads) ys = false ->
             non_object_line json_loads x = true ->
             non_object_line json_loads y = true ->
             x = y).
  { clear. induction xs as [|a xs IH];
      intros [|c ys] x y xs' ys' Heq Hx Hy Nx Ny;
      cbn [app List.existsb] in *.
    - congruence.
    - inversion Heq; subst. rewrite Nx in Hy. discriminate.
    - inversion Heq; subst. rewrite Ny in Hx. discriminate.
    - inversion Heq; subst. apply orb_false_iff in Hx as [_ Hx].
      apply orb_false_iff in Hy as [_ Hy]. eapply IH; eassumption. }
  unfold _extract_last_message_from_codex_jsonl.
  destruct (scan_outcome (nonblank_lines output) None)
    as [[He _]|(before' & line' & after' & v' & Hl' & Hb' & Hv' & Hd' & ->)].
  - rewrite Hl, List.existsb_app in He. cbn [List.existsb] in He.
    unfold non_object_line at 2 in He. rewrite Hv, Hd in He.
    cbn [negb orb] in He. rewrite orb_true_r in He. discriminate.
  - assert (Heq : line = line').
    { apply (Hfirst before before' line line' after after').
      - rewrite <- Hl, <- Hl'. reflexivity.
      - exact Hb.
      - exact Hb'.
      - unfold non_object_line. rewrite Hv, Hd. reflexivity.
      - unfold non_object_line. rewrite Hv', Hd'. reflexivity. }
    subst line'. rewrite Hv in Hv'. inversion Hv'; subst. reflexivity.
Qed.

(** X6. When no non-blank line offers a content, each of them being no JSON
    or a JSON object without a message to take, the result is the trimmed
    output. *)
Theorem no_candidate_gives_raw_output (output : string) :
  (forall line, In line (nonblank_lines output) ->
                non_object_line json_loads line = false
                /\ candidate line = None) ->
  extract_codex output = Return (PyStr.strip output).
Proof.
  intros H. unfold _extract_last_message_from_codex_jsonl.
  destruct (scan_outcome (nonblank_lines output) None)
    as [[He ->]|(before & line & after & v & Hl & Hb & Hv & Hd & ->)].
  - assert (Hnil : omap candidate (nonblank_lines output) = []).
    { clear He. induction (nonblank_lines output) as [|l ls IH];
        [reflexivity|].
      cbn [omap list_omap].
      destruct (H l (or_introl eq_refl)) as [_ ->].
      apply IH. intros x Hx. apply H. right. exact Hx. }
    rewrite Hnil. reflexivity.
  - exfalso. destruct (H line) as [Hn _].
    + rewrite Hl. apply in_or_app. right. left. reflexivity.
    + unfold non_object_line in Hn. rewrite Hv, Hd in Hn. discriminate.
Qed.

Lemma last_omap_in (lines : list string) (c : string) :
  last (omap candidate lines) = Some c ->
  exists line, In line lines /\ candidate line = Some c.
Proof.
  induction lines as [|l ls IH]; cbn [omap list_omap]; [discriminate|].
  destruct (candidate l) as [c'|] eqn:Hc.
  - rewrite last_cons. destruct (last (omap candidate ls)) as [c''|] eqn:Hl.
    + intros Heq. inversion Heq; subst.
      destruct (IH eq_refl) as (line & Hin & Hline).
      exists line. split; [right; exact Hin|exact Hline].
    + intros Heq. inversion Heq; subst. exists l. split; [left; reflexivity|exact Hc].
  - intros Heq. destruct (IH Heq) as (line & Hin & Hline).
    exists line. split; [right; exact Hin|exact Hline].
Qed.

(** X7. The content the parser returns is never made up: it is the trimmed
    output, or the non-empty content of the payload of a line of the output.
    It is empty only when the output is blank. *)
Theorem codex_content_provenance (output c : string) :
  extract_codex output = Return c ->
  (c = PyStr.strip output
   \/ (c <> EmptyString
       /\ exists line, In line (nonblank_lines output)
                       /\ candidate line = Some c))
  /\ (c = EmptyString -> PyStr.strip output = EmptyString).
Proof.
  unfold _extract_last_message_from_codex_jsonl.
  destruct (scan_outcome (nonblank_lines output) None)
    as [[He ->]|(before & line & after & v & Hl & Hb & Hv & Hd & ->)];
    [|discriminate].
  intros Hr. inversion Hr as [Hc]. clear Hr.
  destruct (last (omap candidate (nonblank_lines output))) as [c'|] eqn:Hlast;
    cbn [content_or_raw].
  - destruct c' as [|a r].
    + cbn [PyStr.nonempty]. split; [left; reflexivity|]. intros H; exact H.
    + cbn [PyStr.nonempty]. split; [|discriminate].
      right. split; [discriminate|]. apply last_omap_in. exact Hlast.
  - split; [left; reflexivity|]. intros H; exact H.
Qed.

End CodexMore.

(** ** More on the single-object parser *)

Lemma get_some_nonempty (d : list (string * pyval)) (k : string) (v : pyval) :
  Py.get d k = v -> v <> PNone -> Py.truthy (PDict d) = true.
Proof. destruct d; simpl; [congruence|reflexivity]. Qed.

(** X8. A non-empty string under [text] in the mapping under [completion]
    is the extracted text whatever else the object holds; so is one under
    [text] in the mapping under [result] when [completion] is absent, or
    holds a value that is null, false, zero or empty. *)
Theorem completion_text_wins (json_dumps : pyval -> string)
        (p c : list (string * pyval)) (s : string) :
  Py.get p "completion" = PDict c
  \/ (Py.truthy (Py.get p "completion") = false /\ Py.get p "result" = PDict c) ->
  Py.get c "text" = PStr s ->
  s <> EmptyString ->
  _extract_claude_text json_dumps (PDict p) = s.
Proof.
  intros Hc Ht Hs.
  assert (Hd : Py.truthy (PDict c) = true)
    by (apply (get_some_nonempty c "text" (PStr s) Ht); discriminate).
  assert (Hcomp : Py.or (Py.or (Py.get p "completion") (Py.get p "result"))
                        (PDict []) = PDict c).
  { unfold Py.or. destruct Hc as [-> | [Hf ->]].
    - rewrite Hd, Hd. reflexivity.
    - rewrite Hf, Hd. reflexivity. }
  unfold _extract_claude_text, claude_completion. rewrite Hcomp.
  unfold Py.or. rewrite Ht. destruct s; [congruence|reflexivity].
Qed.

(** ** More on the runner, the adapters and the dispatch *)

Section MoreDispatch.

Variable json_loads : string -> option pyval.
Variable json_dumps : pyval -> string.
Variable utf8_ignore : list byte -> string.
Variable cfg : config.
Variable os : nat -> list string -> spec_float -> completion.

Local Abbreviation query :=
  (query_model json_loads json_dumps utf8_ignore cfg os).
Local Abbreviation adapt := (adapter json_loads json_dumps utf8_ignore cfg os).
Local Abbreviation run_cli := (_run_cli utf8_ignore os).
Local Abbreviation decode := (decode_or_empty utf8_ignore).

(** An adapter whose tool exits with 0 returns a reply or raises. *)
Lemma adapter_success (p : provider) (model_name prompt : string)
      (t : spec_float) (w : list event) (o e : list byte) :
  os (spawned w) (command cfg p model_name prompt) t = Exited 0 o e ->
  let journal :=
    w ++ [Spawn (command cfg p model_name prompt); Communicate t] in
  match p with
  | Codex =>
      adapt p model_name prompt t w
      = (match _extract_last_message_from_codex_jsonl json_loads (decode o) with
         | Return c => Return (Some {| content := c |})
         | Raise x => Raise x
         end, journal)
  | Claude =>
      adapt p model_name prompt t w
      = (Return (Some {| content :=
                          match json_loads (decode o) with
                          | Some payload => _extract_claude_text json_dumps payload
                          | None => PyStr.strip (decode o)
                          end |}), journal)
  | _ =>
      adapt p model_name prompt t w
      = (Return (Some {| content := PyStr.strip (decode o) |}), journal)
  end.
Proof.
  intros Hos journal. subst journal.
  pose proof (run_cli_exited utf8_ignore os _ _ _ _ _ _ Hos) as Hrun.
  destruct p; unfold adapter, command, _query_codex, _query_claude,
    _query_gemini, _query_grok, bind; unfold command in Hrun; rewrite Hrun;
    cbn beta iota; cbn [Z.eqb negb]; try reflexivity.
  - unfold pure.
    destruct (_extract_last_message_from_codex_jsonl json_loads (decode o));
      reflexivity.
  - destruct (json_loads (decode o)); reflexivity.
Qed.


(** X4. The reply of the Gemini and Grok adapters is the output of the tool
    trimmed, as it is: not parsed, and with no blank left at either end, so
    that trimming it again changes nothing. *)
Theorem plain_text_reply_is_trimmed (p : provider) (model_name prompt : string)
        (t : spec_float) (w : list event) (o e : list byte) :
  p = Gemini \/ p = Grok ->
  os (spawned w) (command cfg p model_name prompt) t = Exited 0 o e ->
  exists c,
    (adapt p model_name prompt t w).1 = Return (Some {| content := c |})
    /\ c = PyStr.strip (decode o)
    /\ PyStr.strip c = c.
Proof.
  intros Hp Hos.
  pose proof (adapter_success p model_name prompt t w o e Hos) as Hs.
  cbn zeta in Hs.
  exists (PyStr.strip (decode o)).
  split; [|split; [reflexivity|apply strip_idempotent]].
  destruct Hp as [-> | ->]; rewrite Hs; reflexivity.
Qed.

End MoreDispatch.

(** ** More on the dispatch and the fan-out *)

Lemma spawned_app (a b : list event) :
  spawned (a ++ b) = (spawned a + spawned b)%nat.
Proof. unfold spawned. rewrite List.filter_app, List.length_app. reflexivity. Qed.

Lemma awaited_app (a b : list event) : awaited (a ++ b) = awaited a ++ awaited b.
Proof. unfold awaited. apply omap_app. Qed.

Lemma identifier_split (p : provider) (model_name : string) :
  PyStr.split1 ":" (identifier p model_name) = Some (prefix p, model_name).
Proof. apply split1_app, prefix_no_colon. Qed.

Section MoreFanOut.

Variable json_loads : string -> option pyval.
Variable json_dumps : pyval -> string.
Variable utf8_ignore : list byte -> string.
Variable cfg : config.
Variable os : nat -> list string -> spec_float -> completion.
Variable seen_first : list exn -> nat.

Local Abbreviation query :=
  (query_model json_loads json_dumps utf8_ignore cfg os).
Local Abbreviation query_all :=
  (query_models_parallel json_loads json_dumps utf8_ignore cfg os seen_first).
Local Abbreviation adapt := (adapter json_loads json_dumps utf8_ignore cfg os).

(** X1. For an identifier of a known provider and a prompt, the first thing
    [query_model] does is to launch the tool configured for the provider,
    with the model name, colons and all, and the prompt each as one whole
    argument: the number of arguments depends on the provider alone, so
    neither text is split or read as options. *)
Theorem launches_whole_arguments (p : provider) (model_name : string)
        (messages : list message) (m : message) (timeout : option spec_float)
        (w : list event) :
  last messages = Some m ->
  message_get m "content" EmptyString <> EmptyString ->
  exists cmd rest,
    (query (identifier p model_name) messages timeout w).2
    = w ++ Spawn cmd :: rest
    /\ head cmd = Some (cli cfg p)
    /\ In model_name (List.tl cmd)
    /\ In (message_get m "content" EmptyString) (List.tl cmd)
    /\ length cmd = match p with
                    | Codex => 6 | Claude => 7 | Gemini => 5 | Grok => 6
                    end%nat.
Proof.
  intros Hl Hne.
  rewrite (query_model_known _ _ _ _ _ p _ model_name _ messages m timeout
             Hl eq_refl Hne (identifier_split p model_name)).
  destruct (adapter_journal json_loads json_dumps utf8_ignore cfg os p
              model_name (message_get m "content" EmptyString)
              (timeout_or_default cfg timeout) w)
    as (r & tail & -> & _ & _).
  cbn [snd]. do 2 eexists. split; [reflexivity|].
  destruct p; cbn; intuition.
Qed.

(** X9. Only the content of the last message reaches the tool: the messages
    before it, and the other keys of the last one, change nothing. *)
Theorem earlier_messages_ignored (model : string) (history : list message)
        (m : message) (timeout : option spec_float) :
  query model (history ++ [m]) timeout
  = query model [[("content", message_get m "content" EmptyString)]] timeout.
Proof.
  unfold query_model. rewrite last_snoc. cbn [last message_get].
  change (String.eqb "content" "content") with true. cbv iota.
  reflexivity.
Qed.

(** X10. A call of [query_model] only adds to the journal, and never tries
    twice: whatever the tool does, it makes at most one launch and at most
    one wait, and no wait without a launch. *)
Theorem query_model_launches_at_most_once (model : string)
        (messages : list message) (timeout : option spec_float)
        (w : list event) :
  exists tail,
    (query model messages timeout w).2 = w ++ tail
    /\ (spawned tail <= 1)%nat
    /\ (length (awaited tail) <= spawned tail)%nat.
Proof.
  assert (Hrefused : forall msg,
             query model messages timeout w = (Raise (ValueError msg), w) ->
             exists tail,
               (query model messages timeout w).2 = w ++ tail
               /\ (spawned tail <= 1)%nat
               /\ (length (awaited tail) <= spawned tail)%nat).
  { intros msg ->. exists []. cbn [fst snd]. rewrite app_nil_r.
    split; [reflexivity|]. cbn. lia. }
  destruct (last messages) as [m|] eqn:Hl.
  2:{ eapply Hrefused, query_model_no_messages, Hl. }
  destruct (string_dec (message_get m "content" EmptyString) EmptyString)
    as [He|Hne].
  { eapply Hrefused, query_model_empty_prompt; eassumption. }
  destruct (PyStr.split1 ":" model) as [[pfx name]|] eqn:Hs.
  2:{ eapply Hrefused, query_model_no_separator; try eassumption.
      apply contains_split1, Hs. }
  destruct (provider_of pfx) as [p|] eqn:Hp.
  2:{ eapply Hrefused, query_model_unknown; eassumption. }
  apply provider_of_Some in Hp. subst pfx.
  rewrite (query_model_known _ _ _ _ _ p model name _ messages m timeout
             Hl eq_refl Hne Hs).
  destruct (adapter_journal json_loads json_dumps utf8_ignore cfg os p name
              (message_get m "content" EmptyString)
              (timeout_or_default cfg timeout) w)
    as (r & tail & -> & Hw & Hsp).
  cbn [snd]. eexists. split; [reflexivity|].
  unfold spawned, awaited in *. cbn [List.filter is_spawn omap list_omap].
  rewrite Hsp, Hw. cbn. lia.
Qed.

(** When every coroutine refuses, leaving the journal as it was. *)
Lemma run_all_refused {A : Type} (tasks : list (io A)) (e : exn)
      (w : list event) :
  Forall (fun t => t w = (Raise e, w)) tasks ->
  run_all tasks w = (List.map (fun _ => Raise e) tasks, w).
Proof.
  induction 1 as [|t ts Ht _ IH]; cbn [run_all List.map]; [reflexivity|].
  rewrite Ht, IH. reflexivity.
Qed.

(** X11. On an empty list of models [query_models_parallel] returns the
    empty mapping and launches nothing, whatever the messages, even none.
    On a list that is not empty and an empty history it raises the
    [ValueError] of [query_model], again launching nothing. *)
Theorem fan_out_edges (models : list string) (messages : list message)
        (w : list event) :
  (models = [] -> query_all models messages w = (Return ∅, w))
  /\ (models <> [] -> messages = [] ->
      query_all models messages w
      = (Raise (ValueError "messages must contain at least one item"), w)).
Proof.
  split.
  - intros ->. reflexivity.
  - intros Hm ->. unfold query_models_parallel, bind, gather.
    rewrite (run_all_refused _
               (ValueError "messages must contain at least one item")).
    + destruct models as [|m ms]; [congruence|].
      unfold collect. cbn [List.map raised omap list_omap].
      match goal with
      | |- context [List.nth ?k ?l ?e] =>
          assert (Hn : List.nth k l e = e)
      end; [|rewrite Hn; reflexivity].
      match goal with
      | |- List.nth ?k (?e :: ?l) ?e = ?e =>
          assert (Hall : Forall (fun x => x = e) (e :: l))
      end.
      { apply List.Forall_cons; [reflexivity|].
        clear. induction ms as [|m' ms' IH]; cbn [List.map omap list_omap];
          [apply List.Forall_nil|apply List.Forall_cons; [reflexivity|exact IH]]. }
      match goal with
      | |- List.nth ?k ?l ?e = ?e =>
          destruct (List.nth_in_or_default k l e) as [Hin | ->];
            [|reflexivity];
            rewrite List.Forall_forall in Hall; exact (Hall _ Hin)
      end.
    + apply List.Forall_forall. intros t Ht.
      apply List.in_map_iff in Ht as (m & <- & _).
      reflexivity.
Qed.

(** The outcomes and the journal of a run of calls that are all accepted. *)
Lemma run_all_accepted (models : list string) (messages : list message)
      (m : message) (w : list event) :
  Forall (fun model => exists p name, model = identifier p name) models ->
  last messages = Some m ->
  message_get m "content" EmptyString <> EmptyString ->
  exists outs w',
    run_all (List.map (fun model => query model messages None) models) w
    = (outs, w')
    /\ length outs = length models
    /\ spawned w' = (spawned w + length models)%nat
    /\ awaited w' = awaited w ++ replicate (length models) (DEFAULT_TIMEOUT cfg).
Proof.
  intros Hmodels Hl Hne. revert w.
  induction Hmodels as [|model ms (p & name & ->) _ IH]; intros w.
  - exists [], w. cbn. rewrite Nat.add_0_r, app_nil_r.
    repeat split; reflexivity.
  - cbn [List.map run_all].
    rewrite (query_model_known _ _ _ _ _ p _ name _ messages m None
               Hl eq_refl Hne (identifier_split p name)).
    destruct (adapter_journal json_loads json_dumps utf8_ignore cfg os p name
                (message_get m "content" EmptyString)
                (timeout_or_default cfg None) w)
      as (r & tail & Ha & Hw & Hsp).
    rewrite Ha.
    destruct (IH (w ++ Spawn (command cfg p name
                                (message_get m "content" EmptyString))
                    :: Communicate (timeout_or_default cfg None) :: tail))
      as (outs & w' & -> & Hlen & Hspawn & Haw).
    exists (r :: outs), w'. split; [reflexivity|].
    split; [cbn; rewrite Hlen; reflexivity|].
    split.
    + rewrite Hspawn, spawned_app. unfold spawned at 2.
      cbn [List.filter is_spawn]. rewrite Hsp. cbn. lia.
    + rewrite Haw, awaited_app. unfold awaited at 2.
      cbn [omap list_omap]. fold (awaited tail). rewrite Hw.
      rewrite <- app_assoc. reflexivity.
Qed.

(** X13. A batch of models of known providers that returns has launched one
    process for each entry of the list, an identifier that occurs twice
    being run twice, and has waited for each with [DEFAULT_TIMEOUT]: the
    caller of [query_models_parallel] has no say on the timeout. *)
Theorem fan_out_journal (models : list string) (messages : list message)
        (m : message) (w : list event) (d : gmap string (option reply)) :
  Forall (fun model => exists p name, model = identifier p name) models ->
  last messages = Some m ->
  message_get m "content" EmptyString <> EmptyString ->
  (query_all models messages w).1 = Return d ->
  spawned (query_all models messages w).2 = (spawned w + length models)%nat
  /\ awaited (query_all models messages w).2
     = awaited w ++ replicate (length models) (DEFAULT_TIMEOUT cfg).
Proof.
  intros Hknown Hl Hne _.
  destruct (run_all_accepted models messages m w Hknown Hl Hne)
    as (outs & w' & Hrun & _ & Hsp & Haw).
  assert (Hj : (query_all models messages w).2 = w').
  { unfold query_models_parallel, bind, gather, ret. rewrite Hrun.
    destruct (collect seen_first outs); reflexivity. }
  rewrite Hj. split; assumption.
Qed.


End MoreFanOut.

(** ** The further properties on concrete calls *)

Lemma plain_text_reply_is_trimmed_witness :
  exists c,
    (adapter Json.loads JsonOut.dumps ascii_ignore default_config
       (tool_exits 0 padded_answer EmptyString) Grok "m" "hi"
       (S754_finite false 15 3) []).1
    = Return (Some {| content := c |})
    /\ c = PyStr.strip
             (decode_or_empty ascii_ignore (bytes_of padded_answer))
    /\ PyStr.strip c = c.
Proof.
  exact (plain_text_reply_is_trimmed Json.loads JsonOut.dumps ascii_ignore
           default_config (tool_exits 0 padded_answer EmptyString)
           Grok "m" "hi" (S754_finite false 15 3) [] _ _
           (or_intror eq_refl) eq_refl).
Defined.

Lemma first_non_object_line_raises_witness :
  _extract_last_message_from_codex_jsonl Json.loads
    (assistant_line +:+ PyStr.LF +:+ "null" +:+ PyStr.LF +:+ user_line)
  = Raise (AttributeError "'NoneType' object has no attribute 'get'").
Proof.
  apply (first_non_object_line_raises Json.loads _ "null" [assistant_line]
           [user_line] PNone); vm_compute; reflexivity.
Defined.

Lemma no_candidate_gives_raw_output_witness :
  _extract_last_message_from_codex_jsonl Json.loads progress_then_user
  = Return (PyStr.strip progress_then_user).
Proof.
  apply no_candidate_gives_raw_output.
  intros line Hin. vm_compute in Hin.
  destruct Hin as [<-|[<-|[]]]; split; vm_compute; reflexivity.
Defined.

Lemma codex_content_provenance_witness :
  ("Y" = PyStr.strip (user_line +:+ PyStr.LF +:+ assistant_line)
   \/ ("Y" <> EmptyString
       /\ exists line,
           In line (nonblank_lines (user_line +:+ PyStr.LF +:+ assistant_line))
           /\ line_candidate Json.loads line = Some "Y"))
  /\ ("Y" = EmptyString ->
      PyStr.strip (user_line +:+ PyStr.LF +:+ assistant_line) = EmptyString).
Proof.
  apply (codex_content_provenance Json.loads). vm_compute. reflexivity.
Defined.

Lemma completion_text_wins_witness :
  _extract_claude_text JsonOut.dumps
    (PDict [("output", PStr "o");
            ("completion", PDict [("text", PStr "t")]);
            ("message", PDict [("content", PStr "m")])])
  = "t".
Proof.
  apply (completion_text_wins JsonOut.dumps _ [("text", PStr "t")]).
  - left. reflexivity.
  - reflexivity.
  - discriminate.
Defined.

Lemma fan_out_journal_witness :
  spawned (query_all_in (tool_prints ["one"; "two"; "three"])
             ["grok:a"; "codex:b"; "grok:a"] (ask "hi") []).2
  = 3%nat
  /\ awaited (query_all_in (tool_prints ["one"; "two"; "three"])
                ["grok:a"; "codex:b"; "grok:a"] (ask "hi") []).2
     = replicate 3 (DEFAULT_TIMEOUT default_config).
Proof.
  assert (Hret : exists d,
             (query_all_in (tool_prints ["one"; "two"; "three"])
                ["grok:a"; "codex:b"; "grok:a"] (ask "hi") []).1 = Return d).
  { unfold query_all_in, query_models_parallel, bind, gather.
    destruct (run_all _ _) as [outs w'] eqn:Hrun. vm_compute in Hrun.
    inversion Hrun; subst. eexists. reflexivity. }
  destruct Hret as [d Hd].
  assert (Hknown : Forall (fun model => exists p name, model = identifier p name)
                     ["grok:a"; "codex:b"; "grok:a"]).
  { repeat apply List.Forall_cons; [| | |apply List.Forall_nil].
    - exists Grok, "a". reflexivity.
    - exists Codex, "b". reflexivity.
    - exists Grok, "a". reflexivity. }
  destruct (fan_out_journal Json.loads JsonOut.dumps ascii_ignore default_config
              (tool_prints ["one"; "two"; "three"]) (fun _ => O)
              ["grok:a"; "codex:b"; "grok:a"] (ask "hi")
              [("role", "user"); ("content", "hi")] [] d
              Hknown eq_refl ltac:(discriminate) Hd) as [H1 H2].
  split; [exact H1|exact H2].
Defined.

Lemma launches_whole_arguments_witness :
  exists cmd rest,
    (query_in tool_hangs (identifier Codex "gpt:5 mini") (ask "say -m x") None
       []).2
    = [] ++ Spawn cmd :: rest
    /\ head cmd = Some (cli default_config Codex)
    /\ In "gpt:5 mini" (List.tl cmd)
    /\ In "say -m x" (List.tl cmd)
    /\ length cmd = 6%nat.
Proof.
  exact (launches_whole_arguments Json.loads JsonOut.dumps ascii_ignore
           default_config tool_hangs Codex "gpt:5 mini" (ask "say -m x")
           [("role", "user"); ("content", "say -m x")] None []
           eq_refl ltac:(discriminate)).
Defined.
